(** * LiveEventService: Grafana provisioning utilities

    A shallow embedding of the two Python utilities of the repository,

    - [src/infrastructure/LiveEventService.Infrastructure.CDK/Lambda/grafana_provisioner.py]
      (module [Provisioner]): the CloudFormation custom-resource handler;
    - [observability/grafana/import_dashboard.py] (module [Importer]): the
      stand-alone readiness waiter and dashboard importer,

    together with the properties of their specification.

    Conventions of the embedding.
    - Python [str] is [string]; the configuration strings are taken to be
      ASCII, so that [isspace] is Python's [str.isspace] on code points
      below 128.  HTTP and object bodies are kept as decoded text.
    - A Python [dict] with string keys that is only read ([os.environ], the
      lifecycle event, a boto3 response) is a [gmap string string]; a [dict]
      that is serialised with [json.dumps] is a [JObj], an association list
      in insertion order.
    - Exceptions are values of [exn]; only subclasses of [Exception] are
      modelled.  Effectful code lives in a state-and-exception monad [M]
      whose state holds the outside world and the log of calls made to it. *)

From stdpp Require Import gmap strings list pretty.
From Stdlib Require Import Ascii String QArith Qround Lqa.

Local Open Scope string_scope.
Local Open Scope Z_scope.
Local Open Scope list_scope.

Set Warnings "-register-all".

(** String concatenation computes under [simpl] again. *)
#[local] Arguments String.append !s1 s2 : simpl nomatch.

(** ** Python strings *)

(** [bool(s)] for a string: the empty string is falsy. *)
Definition truthy (s : string) : bool :=
  match s with
  | EmptyString => false
  | String _ _ => true
  end.

(** [s.startswith(p)]. *)
Fixpoint startswith (s p : string) {struct p} : bool :=
  match p with
  | EmptyString => true
  | String a p' =>
      match s with
      | EmptyString => false
      | String b s' => if Ascii.eqb a b then startswith s' p' else false
      end
  end.

(** [s[n:]]. *)
Fixpoint skip (n : nat) (s : string) : string :=
  match n with
  | O => s
  | S n' =>
      match s with
      | EmptyString => EmptyString
      | String _ s' => skip n' s'
      end
  end.

(** The first occurrence of [sep] in [s]: the text before it and the text
    after it. *)
Fixpoint find_sep (sep s : string) : option (string * string) :=
  if startswith s sep then Some (EmptyString, skip (String.length sep) s)
  else
    match s with
    | EmptyString => None
    | String c s' =>
        match find_sep sep s' with
        | Some (before, after) => Some (String c before, after)
        | None => None
        end
    end.

(** [s.partition(sep)], for a non-empty [sep]: [(before, sep, after)] at the
    first occurrence of [sep], and [(s, '', '')] when there is none. *)
Definition partition (s sep : string) : string * string * string :=
  match find_sep sep s with
  | Some (before, after) => (before, sep, after)
  | None => (s, EmptyString, EmptyString)
  end.

(** [s.split(sep)] for a one-character separator. *)
Fixpoint split (sep : ascii) (s : string) : list string :=
  match s with
  | EmptyString => [EmptyString]
  | String c s' =>
      if Ascii.eqb c sep then EmptyString :: split sep s'
      else
        match split sep s' with
        | piece :: pieces => String c piece :: pieces
        | [] => [String c EmptyString]
        end
  end.

(** [c.isspace()] on ASCII: tab, line feed, vertical tab, form feed,
    carriage return, the four separators 0x1c-0x1f, and space. *)
Definition isspace (c : ascii) : bool :=
  let n := N_of_ascii c in
  ((9 <=? n)%N && (n <=? 13)%N) || ((28 <=? n)%N && (n <=? 32)%N).

Fixpoint lstrip (s : string) : string :=
  match s with
  | EmptyString => EmptyString
  | String c s' => if isspace c then lstrip s' else s
  end.

Fixpoint rstrip (s : string) : string :=
  match s with
  | EmptyString => EmptyString
  | String c s' =>
      match rstrip s' with
      | EmptyString => if isspace c then EmptyString else String c EmptyString
      | r => String c r
      end
  end.

(** [s.strip()]. *)
Definition strip (s : string) : string := rstrip (lstrip s).

(** [sep.join(pieces)], used to state what [split] returns. *)
Fixpoint join (sep : string) (pieces : list string) : string :=
  match pieces with
  | [] => EmptyString
  | [p] => p
  | p :: ps => p +:+ sep +:+ join sep ps
  end.

(** Every character of [s] satisfies [p]. *)
Fixpoint all_chars (p : ascii -> bool) (s : string) : bool :=
  match s with
  | EmptyString => true
  | String c s' => p c && all_chars p s'
  end.

(** [sub in s]. *)
Fixpoint contains (s sub : string) : bool :=
  startswith s sub ||
  match s with
  | EmptyString => false
  | String _ s' => contains s' sub
  end.

(** The last character of a string, if any. *)
Fixpoint last_char (s : string) : option ascii :=
  match s with
  | EmptyString => None
  | String c EmptyString => Some c
  | String _ s' => last_char s'
  end.

(** No occurrence of the character [c]. *)
Definition free_of (c : ascii) (s : string) : bool :=
  all_chars (fun x => negb (Ascii.eqb x c)) s.

(** The first character of a string, if any. *)
Definition first_char (s : string) : option ascii :=
  match s with
  | EmptyString => None
  | String c _ => Some c
  end.

Definition no_space (o : option ascii) : Prop :=
  forall c, o = Some c -> isspace c = false.

(** ** JSON documents *)

(** The values [json.loads] produces and [json.dumps] consumes.  An object
    keeps its members in insertion order, as a Python [dict] does. *)
Inductive json : Type :=
| JNull
| JBool (b : bool)
| JInt (n : Z)
| JFloat (q : Q)
| JStr (s : string)
| JArr (items : list json)
| JObj (members : list (string * json)).

(** [d[k]] on an object that is known to have the member: the first binding
    of [k]. *)
Fixpoint assoc (k : string) (members : list (string * json)) : option json :=
  match members with
  | [] => None
  | (k', v) :: rest => if String.eqb k k' then Some v else assoc k rest
  end.

Definition member (k : string) (j : json) : option json :=
  match j with
  | JObj members => assoc k members
  | _ => None
  end.

(** ** Exceptions *)

Inductive exn : Type :=
| HTTPError (code : Z) (msg : string) (body : string)
| KeyError (key : string)
| TimeoutError (msg : string)
| Exception (cls : string) (msg : string).

(** [str(e)]: [HTTPError] prints as ["HTTP Error <code>: <msg>"], a
    [KeyError] as the [repr] of its key, the others as their message. *)
Definition str (e : exn) : string :=
  match e with
  | HTTPError code msg _ => "HTTP Error " +:+ pretty code +:+ ": " +:+ msg
  | KeyError key => "'" +:+ key +:+ "'"
  | TimeoutError msg => msg
  | Exception _ msg => msg
  end.

(** ** The state-and-exception monad *)

Inductive res (A : Type) : Type :=
| Ret (a : A)
| Raise (e : exn).
Arguments Ret {A} a.
Arguments Raise {A} e.

Definition M (S A : Type) : Type := S -> res A * S.

Definition ret {S A} (a : A) : M S A := fun s => (Ret a, s).

Definition raise {S A} (e : exn) : M S A := fun s => (Raise e, s).

Definition bind {S A B} (m : M S A) (k : A -> M S B) : M S B :=
  fun s =>
    match m s with
    | (Ret a, s') => k a s'
    | (Raise e, s') => (Raise e, s')
    end.

(** [try: m except Exception as e: h e]. *)
Definition try_except {S A} (m : M S A) (h : exn -> M S A) : M S A :=
  fun s =>
    match m s with
    | (Ret a, s') => (Ret a, s')
    | (Raise e, s') => h e s'
    end.

Notation "'let*' x ':=' m 'in' k" := (bind m (fun x => k))
  (at level 10, x name, m at level 100, k at level 200).
Notation "'run*' m 'in' k" := (bind m (fun _ => k))
  (at level 10, m at level 100, k at level 200).

(** [d[k]]: a missing key raises [KeyError]. *)
Definition subscript {S} (d : gmap string string) (k : string) : M S string :=
  match d !! k with
  | Some v => ret v
  | None => raise (KeyError k)
  end.

(** [for x in xs: body x]. *)
Fixpoint for_each {S A} (xs : list A) (body : A -> M S unit) : M S unit :=
  match xs with
  | [] => ret tt
  | x :: rest => run* body x in for_each rest body
  end.

(** ** HTTP through [urllib] *)

Inductive http_method : Type := GET | PUT | POST.

(** A [urllib.request.Request] as handed to [urlopen].  [req_data] is the
    document whose [json.dumps(...).encode('utf-8')] is the body;
    [req_timeout] is the [timeout=] argument of [urlopen], in seconds. *)
Record request : Type := {
  req_url : string;
  req_method : http_method;
  req_headers : list (string * string);
  req_data : option json;
  req_timeout : option Z
}.

(** What a successful [urlopen] yields: a 2xx status and the body text. *)
Record response : Type := {
  status : Z;
  body : string
}.

(** The library functions the programs call and that the embedding does not
    unfold. *)
Class PyLib : Type := {
  (** [json.loads]; a [json.JSONDecodeError] is a [Raise]. *)
  json_loads : string -> res json;
  (** [json.dumps]. *)
  json_dumps : json -> string
}.

(** [base64.b64encode(s.encode()).decode()]: standard alphabet, padded. *)
Definition b64_alphabet : string :=
  "ABCDEFGHIJKLMNOPQRSTUVWXYZabcdefghijklmnopqrstuvwxyz0123456789+/".

Definition b64_char (n : N) : ascii :=
  match String.get (N.to_nat n) b64_alphabet with
  | Some c => c
  | None => "="%char
  end.

Fixpoint b64_groups (bytes : list N) : string :=
  match bytes with
  | [] => EmptyString
  | [a] =>
      let n := (a * 65536)%N in
      String (b64_char (n / 262144))
        (String (b64_char ((n / 4096) mod 64)) "==")
  | [a; b] =>
      let n := (a * 65536 + b * 256)%N in
      String (b64_char (n / 262144))
        (String (b64_char ((n / 4096) mod 64))
           (String (b64_char ((n / 64) mod 64)) "="))
  | a :: b :: c :: rest =>
      let n := (a * 65536 + b * 256 + c)%N in
      String (b64_char (n / 262144))
        (String (b64_char ((n / 4096) mod 64))
           (String (b64_char ((n / 64) mod 64))
              (String (b64_char (n mod 64)) (b64_groups rest))))
  end.

Definition b64encode (s : string) : string :=
  b64_groups (List.map N_of_ascii (list_ascii_of_string s)).

(** [res] values enter the monad unchanged. *)
Definition lift {S A} (r : res A) : M S A := fun s => (r, s).

(** [x or y] on strings and on an optional string argument defaulting to
    [None]. *)
Definition or_else (x : option string) (y : string) : string :=
  match x with
  | Some s => if truthy s then s else y
  | None => y
  end.

(** * The stack-lifecycle provisioner ([grafana_provisioner.py]) *)

Module Provisioner.

(** A client object made by [boto3.client]. *)
Record client : Type := {
  service : string;
  region_name : string
}.

(** The calls the handler makes to the outside, in the order of the log. *)
Inductive call : Type :=
| Boto3Client (service region_name : string)
| CreateWorkspaceApiKey (keyName keyRole : string) (secondsToLive : Z)
    (workspaceId : string)
| GetObject (Bucket Key : string)
| UrlOpen (req : request).

(** The outside world of the handler: a state [W] and, for each call, its
    outcome and the next state.  [s3_get_object] stands for
    [s3.get_object(...)['Body'].read().decode('utf-8')] and [urlopen] for
    [with urllib.request.urlopen(req) as resp: resp.read()]. *)
Class Cloud (W : Type) : Type := {
  boto3_client : string -> string -> W -> res unit * W;
  grafana_create_workspace_api_key :
    string -> string -> Z -> string -> W -> res (gmap string string) * W;
  s3_get_object : string -> string -> W -> res string * W;
  urlopen : request -> W -> res response * W
}.

(** The state threaded through the handler: the world and the calls made so
    far, oldest first. *)
Record st (W : Type) : Type := {
  world : W;
  trace : list call
}.
Arguments world {W} s.
Arguments trace {W} s.

(** The [context] argument of the handler. *)
Record lambda_context : Type := {
  log_stream_name : string
}.

Section Handler.
Context `{PyLib} {W : Type} `{Cloud W}.

(** One call to the outside: it is logged, and the world answers. *)
Definition perform {A} (c : call) (f : W -> res A * W) : M (st W) A :=
  fun s =>
    let (r, w') := f (world s) in
    (r, {| world := w'; trace := trace s ++ [c] |}).

Definition http (req : request) : M (st W) response :=
  perform (UrlOpen req) (urlopen req).

Definition new_client (service region_name : string) : M (st W) client :=
  let* _ := perform (Boto3Client service region_name)
                    (boto3_client service region_name) in
  ret {| service := service; region_name := region_name |}.

(** The envelope [send_cfn_response] serialises. *)
Definition response_body (status reason physical stack_id request_id
    logical_id : string) (data : list (string * json)) : json :=
  JObj [("Status", JStr status);
        ("Reason", JStr reason);
        ("PhysicalResourceId", JStr physical);
        ("StackId", JStr stack_id);
        ("RequestId", JStr request_id);
        ("LogicalResourceId", JStr logical_id);
        ("Data", JObj data)].

(** The PUT request [send_cfn_response] builds. *)
Definition cfn_request (response_url : string) (envelope : json) : request :=
  let data := json_dumps envelope in
  {| req_url := response_url;
     req_method := PUT;
     req_headers := [("content-type", "");
                     ("content-length", pretty (String.length data))];
     req_data := Some envelope;
     req_timeout := None |}.

Definition send_cfn_response (event : gmap string string)
    (context : lambda_context) (status : string)
    (data : option (list (string * json))) (reason : option string)
  : M (st W) unit :=
  let response_url := default "" (event !! "ResponseURL") in
  if negb (truthy response_url) then ret tt
  else
    let reason' :=
      or_else reason ("See the details in CloudWatch Log Stream: "
                      +:+ log_stream_name context) in
    let* stack_id := subscript event "StackId" in
    let* request_id := subscript event "RequestId" in
    let* logical_id := subscript event "LogicalResourceId" in
    let envelope :=
      response_body status reason' (log_stream_name context) stack_id
                    request_id logical_id (default [] data) in
    let* _ := http (cfn_request response_url envelope) in
    ret tt.

Definition get_dashboard_json (s3 : client) (s3_uri : string)
  : M (st W) (option string) :=
  if negb (truthy s3_uri) || negb (startswith s3_uri "s3://") then ret None
  else
    let '(_, _, rest) := partition s3_uri "s3://" in
    let '(bucket, _, key) := partition rest "/" in
    let* text := perform (GetObject bucket key) (s3_get_object bucket key) in
    ret (Some text).

(** The data-source definition with uid ['prom']. *)
Definition prom_payload (region amp_workspace_id : string) : json :=
  JObj [("name", JStr "Prometheus");
        ("type", JStr "prometheus");
        ("uid", JStr "prom");
        ("access", JStr "proxy");
        ("url", JStr ("https://aps-workspaces." +:+ region
                      +:+ ".amazonaws.com/workspaces/" +:+ amp_workspace_id
                      +:+ "/api/v1/query"));
        ("jsonData", JObj [("httpMethod", JStr "POST");
                           ("sigV4Auth", JBool true);
                           ("sigV4Region", JStr region)])].

Definition bearer_headers (api_key : string) : list (string * string) :=
  [("Authorization", "Bearer " +:+ api_key);
   ("Content-Type", "application/json")].

(** The update-by-uid request and the create request of
    [ensure_prom_datasource]. *)
Definition update_request (grafana_url api_key region amp_workspace_id
    : string) : request :=
  {| req_url := grafana_url +:+ "/api/datasources/uid/prom";
     req_method := PUT;
     req_headers := bearer_headers api_key;
     req_data := Some (prom_payload region amp_workspace_id);
     req_timeout := None |}.

Definition create_request (grafana_url api_key region amp_workspace_id
    : string) : request :=
  {| req_url := grafana_url +:+ "/api/datasources";
     req_method := POST;
     req_headers := bearer_headers api_key;
     req_data := Some (prom_payload region amp_workspace_id);
     req_timeout := None |}.

(** The handler of [except urllib.error.HTTPError as e]: codes 404 and 400
    fall through to the create, every other exception is raised again.  An
    exception that is not an [HTTPError] is not caught at all. *)
Definition update_failed (e : exn) : M (st W) bool :=
  match e with
  | HTTPError code _ _ =>
      if bool_decide (code ∉ [404; 400]) then raise e else ret false
  | _ => raise e
  end.

Definition ensure_prom_datasource (grafana_url api_key region
    amp_workspace_id : string) : M (st W) unit :=
  let* updated :=
    try_except
      (let* _ := http (update_request grafana_url api_key region
                                      amp_workspace_id) in
       ret true)
      update_failed in
  if (updated : bool) then ret tt
  else
    let* _ := http (create_request grafana_url api_key region
                                   amp_workspace_id) in
    ret tt.

(** The envelope of an import: overwrite forced, root folder. *)
Definition import_payload (dashboard : json) : json :=
  JObj [("dashboard", dashboard);
        ("overwrite", JBool true);
        ("folderId", JInt 0)].

Definition import_request (grafana_url api_key : string) (dashboard : json)
  : request :=
  {| req_url := grafana_url +:+ "/api/dashboards/db";
     req_method := POST;
     req_headers := bearer_headers api_key;
     req_data := Some (import_payload dashboard);
     req_timeout := None |}.

Definition import_dashboard (grafana_url api_key dashboard_json : string)
  : M (st W) unit :=
  let* dashboard := lift (json_loads dashboard_json) in
  let* _ := http (import_request grafana_url api_key dashboard) in
  ret tt.

(** [filter(None, [u.strip() for u in s3_uris.split(',')])]. *)
Definition dashboard_uris (s3_uris : string) : list string :=
  List.filter truthy (List.map strip (split "," s3_uris)).

(** The body of the loop over the locators. *)
Definition import_from (s3 : client) (endpoint api_key uri : string)
  : M (st W) unit :=
  let* body := get_dashboard_json s3 uri in
  match body with
  | Some text =>
      if truthy text then import_dashboard endpoint api_key text else ret tt
  | None => ret tt
  end.

(** The Create/Update branch of [handler] up to, and without, the final
    [send_cfn_response]. *)
Definition provision (environ : gmap string string) : M (st W) unit :=
  let* region := subscript environ "AWS_REGION" in
  let* workspace_id := subscript environ "GRAFANA_WORKSPACE_ID" in
  let* endpoint := subscript environ "GRAFANA_ENDPOINT" in
  let* amp_workspace_id := subscript environ "AMP_WORKSPACE_ID" in
  let s3_uris := default "" (environ !! "DASHBOARD_URIS") in
  let* grafana := new_client "grafana" region in
  let* s3 := new_client "s3" region in
  let* api_key_resp :=
    perform (CreateWorkspaceApiKey "cdk-provision" "ADMIN" 3600 workspace_id)
            (grafana_create_workspace_api_key "cdk-provision" "ADMIN" 3600
                                              workspace_id) in
  let* api_key := subscript api_key_resp "key" in
  run* ensure_prom_datasource endpoint api_key region amp_workspace_id in
  for_each (dashboard_uris s3_uris) (import_from s3 endpoint api_key).

Definition handler (environ : gmap string string)
    (event : gmap string string) (context : lambda_context) : M (st W) unit :=
  let request_type := default "Create" (event !! "RequestType") in
  try_except
    (if bool_decide (request_type ∈ ["Create"; "Update"]) then
       run* provision environ in
       send_cfn_response event context "SUCCESS"
                         (Some [("Status", JStr "Provisioned")]) None
     else
       send_cfn_response event context "SUCCESS"
                         (Some [("Status", JStr "Deleted")]) None)
    (fun e => send_cfn_response event context "FAILED" None (Some (str e))).

End Handler.

(** *** Reading the log *)

(** The [Status] a logged call reports, when it is a lifecycle callback to
    [response_url]: a PUT to that URL that carries no [Authorization]
    header and whose document has a string member [Status]. *)
Definition callback_status (response_url : string) (c : call)
  : option string :=
  match c with
  | UrlOpen req =>
      match req_method req, req_data req with
      | PUT, Some envelope =>
          if String.eqb (req_url req) response_url
             && negb (existsb (fun h => String.eqb (fst h) "Authorization")
                              (req_headers req))
          then match member "Status" envelope with
               | Some (JStr s) => Some s
               | _ => None
               end
          else None
      | _, _ => None
      end
  | _ => None
  end.

Definition is_callback (response_url : string) (c : call) : bool :=
  match callback_status response_url c with
  | Some _ => true
  | None => false
  end.

Definition reports (response_url status : string) (c : call) : bool :=
  match callback_status response_url c with
  | Some s => String.eqb s status
  | None => false
  end.

(** The [Reason] and [Data] members of a logged callback. *)
Definition callback_member (k : string) (c : call) : option json :=
  match c with
  | UrlOpen req =>
      match req_data req with
      | Some envelope => member k envelope
      | None => None
      end
  | _ => None
  end.

(** A call to one of the provisioning backends: client construction, the
    API key, the object store, or an authenticated Grafana request. *)
Definition is_backend_call (c : call) : bool :=
  match c with
  | Boto3Client _ _ => true
  | CreateWorkspaceApiKey _ _ _ _ => true
  | GetObject _ _ => true
  | UrlOpen req =>
      existsb (fun h => String.eqb (fst h) "Authorization") (req_headers req)
  end.

(** A dashboard import: a POST to the import endpoint. *)
Definition is_import (c : call) : bool :=
  match c with
  | UrlOpen req =>
      match req_method req with
      | POST => contains (req_url req) "/api/dashboards/db"
      | _ => false
      end
  | _ => false
  end.

(** The object-store fetches of a log, in order. *)
Fixpoint fetches (t : list call) : list (string * string) :=
  match t with
  | [] => []
  | GetObject b k :: rest => (b, k) :: fetches rest
  | _ :: rest => fetches rest
  end.

(** A lifecycle event as the orchestrator sends it: the three identifiers
    that the callback echoes are present. *)
Definition lifecycle_event (event : gmap string string) : Prop :=
  is_Some (event !! "StackId") /\ is_Some (event !! "RequestId")
  /\ is_Some (event !! "LogicalResourceId").

(** The event carries a callback URL. *)
Definition carries_response_url (event : gmap string string) (url : string)
  : Prop :=
  event !! "ResponseURL" = Some url /\ truthy url = true.

(** *** The data-source backend

    What [ensure_prom_datasource] expects of Grafana, with [present w]
    telling whether the data source with uid [prom] exists in the world
    [w]: an update of an existing data source succeeds, an update of a
    missing one is answered 404, and a create of a missing one succeeds and
    brings it into existence. *)

Definition is_update (grafana_url : string) (req : request) : Prop :=
  req_method req = PUT
  /\ req_url req = grafana_url +:+ "/api/datasources/uid/prom".

Definition is_create (grafana_url : string) (req : request) : Prop :=
  req_method req = POST /\ req_url req = grafana_url +:+ "/api/datasources".

Record upsert_backend {W : Type} `{Cloud W} (present : W -> bool)
    (grafana_url : string) : Prop := {
  update_existing :
    forall w req, is_update grafana_url req -> present w = true ->
      exists resp w', urlopen req w = (Ret resp, w') /\ present w' = true;
  update_missing :
    forall w req, is_update grafana_url req -> present w = false ->
      exists msg text w',
        urlopen req w = (Raise (HTTPError 404 msg text), w')
        /\ present w' = false;
  create_missing :
    forall w req, is_create grafana_url req -> present w = false ->
      exists resp w', urlopen req w = (Ret resp, w') /\ present w' = true
}.

(** *** The lifecycle callback *)

(** The request [send_cfn_response] sends for an event whose identifiers
    are [stack_id], [request_id] and [logical_id]. *)
Definition callback `{PyLib} (response_url : string)
    (context : lambda_context) (stack_id request_id logical_id : string)
    (status : string) (data : option (list (string * json)))
    (reason : option string) : request :=
  cfn_request response_url
    (response_body status
       (or_else reason ("See the details in CloudWatch Log Stream: "
                        +:+ log_stream_name context))
       (log_stream_name context) stack_id request_id logical_id
       (default [] data)).

(** The callback endpoint accepts every PUT it is sent. *)
Definition accepts {W : Type} `{Cloud W} (response_url : string) : Prop :=
  forall w req,
    req_method req = PUT -> req_url req = response_url ->
    exists resp w', urlopen req w = (Ret resp, w').

(** The bucket and key [get_dashboard_json] asks the object store for, if
    it asks at all. *)
Definition locator (s3_uri : string) : list (string * string) :=
  if negb (truthy s3_uri) || negb (startswith s3_uri "s3://") then []
  else
    let '(_, _, rest) := partition s3_uri "s3://" in
    let '(bucket, _, key) := partition rest "/" in
    [(bucket, key)].

(** The fetches a list of locators asks for, in order. *)
Definition locators (s3_uris : list string) : list (string * string) :=
  List.concat (List.map locator s3_uris).

End Provisioner.

(** * The stand-alone importer ([import_dashboard.py]) *)

Module Importer.

(** The machine the script runs on.  Time is in seconds.  [net n] is what
    the [n]-th [urlopen] of the run meets: how long the request takes and
    how it ends.  [files] answers [open(path).read()]. *)
Record host : Type := {
  now : Q;
  net : nat -> Q * res response;
  sent : list request;
  files : string -> res string;
  stdout : list string
}.

(** [time.sleep(secs)]: the clock moves on by exactly [secs].
    [time.time()] reads [now]. *)
Definition time_sleep (secs : Q) : M host unit :=
  fun h =>
    (Ret tt,
     {| now := (now h + secs)%Q; net := net h; sent := sent h;
        files := files h; stdout := stdout h |}).

(** [urllib.request.urlopen(req, timeout=...)]: the request is logged, the
    clock advances by the time the request took. *)
Definition urlopen (req : request) : M host response :=
  fun h =>
    let (took, outcome) := net h (List.length (sent h)) in
    (outcome,
     {| now := (now h + took)%Q; net := net h; sent := sent h ++ [req];
        files := files h; stdout := stdout h |}).

Definition print (line : string) : M host unit :=
  fun h =>
    (Ret tt,
     {| now := now h; net := net h; sent := sent h; files := files h;
        stdout := stdout h ++ [line] |}).

Definition open_read (path : string) : M host string :=
  fun h => (files h path, h).

Section Script.
Context `{PyLib} (environ : gmap string string).

Definition GRAFANA_URL : string :=
  default "http://grafana:3000" (environ !! "GRAFANA_URL").
Definition GRAFANA_USER : string :=
  default "admin" (environ !! "GRAFANA_USER").
Definition GRAFANA_PASS : string :=
  default "admin" (environ !! "GRAFANA_PASS").
Definition DASHBOARD_PATH : string :=
  default "/dashboards/liveevent-overview.json" (environ !! "DASHBOARD_PATH").

Definition health_request : request :=
  {| req_url := GRAFANA_URL +:+ "/api/health";
     req_method := GET;
     req_headers := [];
     req_data := None;
     req_timeout := Some 5 |}.

(** The [try] statement of the loop body: [true] when it executes
    [return]. *)
Definition health_check : M host bool :=
  try_except
    (let* resp := urlopen health_request in
     ret (status resp =? 200))
    (fun _ => ret false).

Definition not_ready : exn :=
  TimeoutError "Grafana did not become ready in time".

(** The [while] loop of [wait_for_grafana_ready], for at most [fuel] tests
    of its condition; [None] when the fuel does not suffice. *)
Fixpoint poll (fuel : nat) (deadline : Q) (h : host)
  : option (res unit * host) :=
  match fuel with
  | O => None
  | S fuel' =>
      if Qlt_le_dec (now h) deadline then
        match health_check h with
        | (Ret true, h') => Some (Ret tt, h')
        | (Ret false, h') => poll fuel' deadline (snd (time_sleep 2 h'))
        | (Raise e, h') => Some (Raise e, h')
        end
      else Some (Raise not_ready, h)
  end.

Definition wait_for_grafana_ready (timeout_seconds : Z) (fuel : nat)
    (h : host) : option (res unit * host) :=
  let deadline := (now h + inject_Z timeout_seconds)%Q in
  poll fuel deadline h.

Definition import_payload (dashboard : json) : json :=
  JObj [("dashboard", dashboard);
        ("overwrite", JBool true);
        ("folderId", JInt 0)].

Definition import_request (dashboard : json) : request :=
  let token := b64encode (GRAFANA_USER +:+ ":" +:+ GRAFANA_PASS) in
  {| req_url := GRAFANA_URL +:+ "/api/dashboards/db";
     req_method := POST;
     req_headers := [("Authorization", "Basic " +:+ token);
                     ("Content-Type", "application/json")];
     req_data := Some (import_payload dashboard);
     req_timeout := Some 10 |}.

(** The handler of [except urllib.error.HTTPError as e]. *)
Definition import_failed (e : exn) : M host unit :=
  match e with
  | HTTPError code _ text =>
      run* print ("Import failed: " +:+ pretty code) in
      run* print text in
      raise e
  | _ => raise e
  end.

Definition import_dashboard : M host unit :=
  let* text := open_read DASHBOARD_PATH in
  let* dashboard := lift (json_loads text) in
  try_except
    (let* resp := urlopen (import_request dashboard) in
     run* print ("Imported dashboard: " +:+ pretty (status resp)) in
     print (body resp))
    import_failed.

(** The [__main__] block: wait with the default timeout, then import. *)
Definition main (fuel : nat) (h : host) : option (res unit * host) :=
  match wait_for_grafana_ready 120 fuel h with
  | Some (Ret _, h') => Some (import_dashboard h')
  | other => other
  end.

End Script.

(** The exit status of the interpreter: 1 after an uncaught exception. *)
Definition exit_status (r : res unit) : Z :=
  match r with
  | Ret _ => 0
  | Raise _ => 1
  end.

(** *** Reading a run of the waiter *)

(** How long the [i]-th health check from [h] on takes, and whether it
    answers 200. *)
Definition took (h : host) (i : nat) : Q :=
  fst (net h (List.length (sent h) + i)%nat).

Definition ready_at (h : host) (i : nat) : bool :=
  match snd (net h (List.length (sent h) + i)%nat) with
  | Ret resp => status resp =? 200
  | Raise _ => false
  end.

(** When the [i]-th health check starts, as long as none before it
    answered 200: each earlier one took its time and was followed by the
    two-second sleep. *)
Fixpoint poll_time (h : host) (i : nat) : Q :=
  match i with
  | O => now h
  | S j => (poll_time h j + took h j + 2)%Q
  end.

End Importer.

(** * Sample worlds

    Concrete instances on which the definitions above run. *)

Module Samples.

Definition quote (s : string) : string :=
  String (ascii_of_nat 34) (s +:+ String (ascii_of_nat 34) EmptyString).

(** A serialiser in the style of [json.dumps], without string escapes. *)
Fixpoint sample_dumps (j : json) : string :=
  match j with
  | JNull => "null"
  | JBool true => "true"
  | JBool false => "false"
  | JInt n => pretty n
  | JFloat q => pretty (Qnum q) +:+ "/" +:+ pretty (Zpos (Qden q))
  | JStr s => quote s
  | JArr items => "[" +:+ join ", " (List.map sample_dumps items) +:+ "]"
  | JObj members =>
      "{" +:+ join ", "
                (List.map (fun kv => quote (fst kv) +:+ ": "
                                     +:+ sample_dumps (snd kv)) members)
      +:+ "}"
  end.

(** The text of a one-member document with a [title]. *)
Definition titled (title : string) : string :=
  "{" +:+ quote "title" +:+ ": " +:+ quote title +:+ "}".

(** A reader that knows a handful of documents and rejects the rest. *)
Definition sample_loads (text : string) : res json :=
  if String.eqb text "{}" then Ret (JObj [])
  else if String.eqb text "[]" then Ret (JArr [])
  else if String.eqb text (titled "overview")
       then Ret (JObj [("title", JStr "overview")])
  else if String.eqb text (titled "latency")
       then Ret (JObj [("title", JStr "latency")])
  else Raise (Exception "JSONDecodeError"
                        "Expecting value: line 1 column 1 (char 0)").

#[export] Instance sample_lib : PyLib :=
  {| json_loads := sample_loads; json_dumps := sample_dumps |}.

(** A small cloud: Grafana either has the data source [prom] or not, the
    object store holds a few objects. *)
Record sandbox : Type := {
  has_prom : bool;
  objects : list (string * string * string)
}.

Fixpoint find_object (bucket key : string)
    (objs : list (string * string * string)) : res string :=
  match objs with
  | [] => Raise (Exception "NoSuchKey" "The specified key does not exist.")
  | (b, k, text) :: rest =>
      if String.eqb b bucket && String.eqb k key then Ret text
      else find_object bucket key rest
  end.

Definition ok : response := {| status := 200; body := "{}" |}.

(** [callback_ok] tells whether the callback endpoint accepts a PUT. *)
Definition sandbox_urlopen (callback_ok : bool) (req : request) (w : sandbox)
  : res response * sandbox :=
  match req_method req with
  | PUT =>
      if contains (req_url req) "/api/datasources/uid/prom" then
        if has_prom w then (Ret ok, w)
        else (Raise (HTTPError 404 "Not Found" "{}"), w)
      else if callback_ok then (Ret ok, w)
      else (Raise (HTTPError 403 "Forbidden" ""), w)
  | POST =>
      if contains (req_url req) "/api/datasources" then
        if has_prom w then (Raise (HTTPError 409 "Conflict" "{}"), w)
        else (Ret ok, {| has_prom := true; objects := objects w |})
      else (Ret ok, w)
  | GET => (Ret ok, w)
  end.

Definition sandbox_cloud (callback_ok : bool) : Provisioner.Cloud sandbox :=
  {| Provisioner.boto3_client := fun _ _ w => (Ret tt, w);
     Provisioner.grafana_create_workspace_api_key :=
       fun _ _ _ _ w => (Ret {[ "key" := "secret" ]}, w);
     Provisioner.s3_get_object :=
       fun b k w => (find_object b k (objects w), w);
     Provisioner.urlopen := sandbox_urlopen callback_ok |}.

Definition fresh : sandbox :=
  {| has_prom := false;
     objects := [("b", "a.json", titled "overview");
                 ("b", "c.json", titled "latency")] |}.

Definition start (w : sandbox) : Provisioner.st sandbox :=
  {| Provisioner.world := w; Provisioner.trace := [] |}.

Definition sample_environ : gmap string string :=
  {[ "AWS_REGION" := "eu-west-1";
     "GRAFANA_WORKSPACE_ID" := "g-xyz";
     "GRAFANA_ENDPOINT" := "https://g-xyz.grafana-workspace.eu-west-1.amazonaws.com";
     "AMP_WORKSPACE_ID" := "ws-1";
     "DASHBOARD_URIS" := "s3://b/a.json, ,s3://b/c.json" ]}.

Definition sample_event (request_type : string) : gmap string string :=
  {[ "RequestType" := request_type;
     "ResponseURL" := "https://cfn.example/callback";
     "StackId" := "stack-1";
     "RequestId" := "req-1";
     "LogicalResourceId" := "GrafanaProvisioner" ]}.

Definition sample_context : Provisioner.lambda_context :=
  {| Provisioner.log_stream_name := "2026/stream" |}.

(** A machine for the script whose network follows [script]. *)
Definition sample_host (script : nat -> Q * res response) : Importer.host :=
  {| Importer.now := 0%Q;
     Importer.net := script;
     Importer.sent := [];
     Importer.files :=
       fun path =>
         if String.eqb path "/dashboards/liveevent-overview.json"
         then Ret (titled "overview")
         else Raise (Exception "FileNotFoundError"
                               "[Errno 2] No such file or directory");
     Importer.stdout := [] |}.

(** Grafana refuses connections for the first [n] health checks, each
    failing after [took] seconds, and answers 200 from then on. *)
Definition up_after (n : nat) (took : Q) (i : nat) : Q * res response :=
  if (i <? n)%nat
  then (took, Raise (Exception "URLError"
                               "<urlopen error [Errno 111] Connection refused>"))
  else (0%Q, Ret ok).

(** Every request hangs until its five-second timeout. *)
Definition always_timing_out (i : nat) : Q * res response :=
  (5%Q, Raise (TimeoutError "timed out")).

End Samples.

(** * Properties of the string operations *)

Section Strings.

Lemma append_empty_r (s : string) : s +:+ EmptyString = s.
Proof. induction s as [|c s IH]; simpl; [reflexivity | now rewrite IH]. Qed.

Lemma startswith_app (p r : string) : startswith (p +:+ r) p = true.
Proof.
  induction p as [|c p IH]; simpl; [reflexivity |].
  now rewrite Ascii.eqb_refl.
Qed.

Lemma startswith_skip (s p : string) :
  startswith s p = true -> s = p +:+ skip (String.length p) s.
Proof.
  revert s; induction p as [|c p IH]; intros s; simpl; [reflexivity |].
  destruct s as [|d s]; [discriminate |].
  destruct (Ascii.eqb c d) eqn:E; [| discriminate].
  apply Ascii.eqb_eq in E; subst d.
  intros Hs. f_equal. now apply IH.
Qed.

Lemma skip_app (p r : string) : skip (String.length p) (p +:+ r) = r.
Proof. induction p as [|c p IH]; simpl; [reflexivity | exact IH]. Qed.

Lemma find_sep_eq (sep s : string) :
  find_sep sep s =
  if startswith s sep then Some (EmptyString, skip (String.length sep) s)
  else
    match s with
    | EmptyString => None
    | String c s' =>
        match find_sep sep s' with
        | Some (before, after) => Some (String c before, after)
        | None => None
        end
    end.
Proof. destruct s; reflexivity. Qed.

(** What [partition] returns always glues back to its argument. *)
Lemma find_sep_glue (sep s before after : string) :
  find_sep sep s = Some (before, after) -> s = before +:+ sep +:+ after.
Proof.
  revert before after; induction s as [|c s IH]; intros before after;
    rewrite find_sep_eq.
  - destruct (startswith EmptyString sep) eqn:E; [| discriminate].
    intros [= <- <-]. simpl. now apply startswith_skip.
  - destruct (startswith (String c s) sep) eqn:E.
    + intros [= <- <-]. simpl. now apply startswith_skip.
    + destruct (find_sep sep s) as [[b a]|] eqn:F; [| discriminate].
      intros [= <- <-]. simpl. f_equal. now apply IH.
Qed.

Lemma partition_glue (s sep : string) :
  let '(before, mid, after) := partition s sep in
  s = before +:+ mid +:+ after.
Proof.
  unfold partition. destruct (find_sep sep s) as [[b a]|] eqn:F.
  - now apply find_sep_glue.
  - simpl. now rewrite append_empty_r.
Qed.

Lemma partition_prefix (p r : string) :
  partition (p +:+ r) p = (EmptyString, p, r).
Proof.
  unfold partition. rewrite find_sep_eq, startswith_app, skip_app.
  reflexivity.
Qed.

Lemma partition_absent (c : ascii) (s : string) :
  free_of c s = true ->
  partition s (String c EmptyString) = (s, EmptyString, EmptyString).
Proof.
  intros Hs. unfold partition.
  assert (F : find_sep (String c EmptyString) s = None).
  { induction s as [|d s IH]; [reflexivity |].
    rewrite find_sep_eq. simpl in Hs. apply andb_true_iff in Hs as [Hd Hs].
    simpl. rewrite Ascii.eqb_sym. apply negb_true_iff in Hd. rewrite Hd.
    now rewrite IH. }
  now rewrite F.
Qed.



Lemma split_free (sep : ascii) (s : string) :
  Forall (fun piece => free_of sep piece = true) (split sep s).
Proof.
  induction s as [|c s IH]; simpl.
  - constructor; [reflexivity | constructor].
  - destruct (Ascii.eqb c sep) eqn:E.
    + constructor; [reflexivity | exact IH].
    + destruct (split sep s) as [|p ps].
      * constructor; [| constructor]. unfold free_of; simpl. now rewrite E.
      * apply Forall_cons in IH as [Hp Hps].
        constructor; [| exact Hps]. unfold free_of in *; simpl.
        now rewrite E, Hp.
Qed.

Lemma lstrip_spec (s : string) :
  exists l, s = l +:+ lstrip s /\ all_chars isspace l = true
            /\ no_space (first_char (lstrip s)).
Proof.
  induction s as [|c s IH]; simpl.
  - exists EmptyString.
    split; [reflexivity |]. split; [reflexivity |]. intros ? [=].
  - destruct IH as (l & Hl & Hsp & Hfirst). destruct (isspace c) eqn:E.
    + exists (String c l). simpl. rewrite E, Hsp.
      split; [now rewrite <- Hl |]. split; [reflexivity | exact Hfirst].
    + exists EmptyString.
      split; [reflexivity |]. split; [reflexivity |].
      intros d [= <-]. exact E.
Qed.

Lemma rstrip_spec (s : string) :
  exists r, s = rstrip s +:+ r /\ all_chars isspace r = true
            /\ no_space (last_char (rstrip s))
            /\ (no_space (first_char s) -> s <> EmptyString ->
                first_char (rstrip s) = first_char s).
Proof.
  induction s as [|c s IH]; simpl.
  - exists EmptyString.
    split; [reflexivity |]. split; [reflexivity |].
    split; [intros ? [=] | congruence].
  - destruct IH as (r & Hr & Hsp & Hlast & Hfirst).
    destruct (rstrip s) as [|d t] eqn:R.
    + simpl in Hr. subst r. destruct (isspace c) eqn:E.
      * exists (String c s). simpl. rewrite E, Hsp.
        split; [reflexivity |]. split; [reflexivity |].
        split; [intros ? [=] |].
        intros Hc _. specialize (Hc c eq_refl). congruence.
      * exists s. simpl.
        split; [reflexivity |]. split; [exact Hsp |].
        split; [| reflexivity]. intros x [= <-]. exact E.
    + exists r. simpl in *. rewrite <- Hr.
      split; [reflexivity |]. split; [exact Hsp |].
      split; [exact Hlast | reflexivity].
Qed.

(** [strip] removes whitespace from both ends and nothing else. *)
Lemma strip_spec (s : string) :
  exists l r, s = l +:+ strip s +:+ r
              /\ all_chars isspace l = true /\ all_chars isspace r = true
              /\ no_space (first_char (strip s))
              /\ no_space (last_char (strip s)).
Proof.
  destruct (lstrip_spec s) as (l & Hl & Hlsp & Hfirst).
  destruct (rstrip_spec (lstrip s)) as (r & Hr & Hrsp & Hlast & Hkeep).
  exists l, r. unfold strip. repeat split; try assumption.
  - now rewrite <- Hr.
  - destruct (lstrip s) as [|c t] eqn:L; [simpl; intros ? [=] |].
    rewrite Hkeep; [exact Hfirst | exact Hfirst | discriminate].
Qed.

End Strings.

(** * Properties of the provisioner *)

Module ProvisionerFacts.
Import Provisioner.

Section Facts.
Context `{PyLib} {W : Type} `{Cloud W}.

(** The state after one logged call. *)
Definition after (c : call) (w : W) (s : st W) : st W :=
  {| world := w; trace := trace s ++ [c] |}.

Lemma perform_run {A} (c : call) (f : W -> res A * W) (s : st W) :
  perform c f s = (fst (f (world s)), after c (snd (f (world s))) s).
Proof. unfold perform, after. now destruct (f (world s)). Qed.

Lemma http_run (req : request) (s : st W) :
  http req s
  = (fst (urlopen req (world s)),
     after (UrlOpen req) (snd (urlopen req (world s))) s).
Proof. apply perform_run. Qed.

(** The outcome of a computation whose value is dropped. *)
Definition void {A} (r : res A) : res unit :=
  match r with
  | Ret _ => Ret tt
  | Raise e => Raise e
  end.

Lemma bind_void {A} (m : M (st W) A) (s : st W) :
  (let* _ := m in ret tt) s = (void (fst (m s)), snd (m s)).
Proof. unfold bind, ret. now destruct (m s) as [[a|e] s']. Qed.

(** *** Fetching a dashboard blob *)

Lemma get_dashboard_json_malformed (s3 : client) (uri : string) (s : st W) :
  truthy uri = false \/ startswith uri "s3://" = false ->
  get_dashboard_json s3 uri s = (Ret None, s).
Proof.
  intros [Hu | Hu]; unfold get_dashboard_json; rewrite Hu; simpl;
    [reflexivity | now rewrite orb_true_r].
Qed.

Lemma get_dashboard_json_s3 (s3 : client) (rest : string) (s : st W) :
  get_dashboard_json s3 ("s3://" +:+ rest) s
  = let '(bucket, _, key) := partition rest "/" in
    (match fst (s3_get_object bucket key (world s)) with
     | Ret text => Ret (Some text)
     | Raise e => Raise e
     end,
     after (GetObject bucket key) (snd (s3_get_object bucket key (world s))) s).
Proof.
  unfold get_dashboard_json.
  rewrite (startswith_app "s3://" rest), (partition_prefix "s3://" rest).
  change (truthy ("s3://" +:+ rest)) with true. cbn [negb orb].
  destruct (partition rest "/") as [[bucket mid] key].
  unfold bind. rewrite perform_run.
  now destruct (s3_get_object bucket key (world s)) as [[text|e] w'].
Qed.

(** C5. A locator that is empty or does not start with [s3://] (an empty
    string, another scheme such as [http://...], the missing-slash form
    [s3:/missing-slash]) makes [get_dashboard_json] return [None] with no
    fetch attempt and no error: the state, log included, is unchanged.  The
    loop body of the handler then does nothing for it, and the loop goes on
    with the next locator. *)
Theorem malformed_locator_skipped (s3 : client) (uri : string) (s : st W) :
  truthy uri = false \/ startswith uri "s3://" = false ->
  get_dashboard_json s3 uri s = (Ret None, s)
  /\ (forall endpoint api_key,
         import_from s3 endpoint api_key uri s = (Ret tt, s))
  /\ (forall endpoint api_key others,
         for_each (uri :: others) (import_from s3 endpoint api_key) s
         = for_each others (import_from s3 endpoint api_key) s).
Proof.
  intros Hu. pose proof (get_dashboard_json_malformed s3 uri s Hu) as Hget.
  assert (Hbody : forall endpoint api_key,
             import_from s3 endpoint api_key uri s = (Ret tt, s)).
  { intros. unfold import_from, bind. now rewrite Hget. }
  repeat split; [exact Hget | exact Hbody |].
  intros. simpl. unfold bind. now rewrite Hbody.
Qed.

(** C10. A locator [s3://<rest>] whose remainder holds no [/] is not
    skipped: [get_dashboard_json] calls [get_object] with the whole
    remainder as the bucket and the empty string as the key.  What the
    object store answers is what the caller gets: the text, or the
    exception, which also leaves the loop body of the handler. *)
Theorem slashless_locator_is_fetched (s3 : client) (rest : string)
    (s : st W) :
  free_of "/" rest = true ->
  let answer := s3_get_object rest EmptyString (world s) in
  let s' := after (GetObject rest EmptyString) (snd answer) s in
  get_dashboard_json s3 ("s3://" +:+ rest) s
  = (match fst answer with
     | Ret text => Ret (Some text)
     | Raise e => Raise e
     end, s')
  /\ (forall endpoint api_key e,
         fst answer = Raise e ->
         import_from s3 endpoint api_key ("s3://" +:+ rest) s = (Raise e, s')).
Proof.
  intros Hfree answer s'.
  assert (Hget : get_dashboard_json s3 ("s3://" +:+ rest) s
                 = (match fst answer with
                    | Ret text => Ret (Some text)
                    | Raise e => Raise e
                    end, s')).
  { rewrite get_dashboard_json_s3, (partition_absent "/" rest Hfree).
    reflexivity. }
  split; [exact Hget |].
  intros endpoint api_key e He. unfold import_from, bind.
  now rewrite Hget, He.
Qed.

(** *** Ensuring the data source *)

Section Ensure.
Variables grafana_url api_key region amp_workspace_id : string.

Let update := update_request grafana_url api_key region amp_workspace_id.
Let create := create_request grafana_url api_key region amp_workspace_id.
Let ensure :=
  ensure_prom_datasource grafana_url api_key region amp_workspace_id.

Lemma ensure_updated (s : st W) (resp : response) :
  fst (urlopen update (world s)) = Ret resp ->
  ensure s = (Ret tt, after (UrlOpen update) (snd (urlopen update (world s))) s).
Proof.
  intros Hput. unfold ensure, ensure_prom_datasource, bind, try_except, ret.
  fold update. rewrite http_run, Hput. reflexivity.
Qed.

Lemma ensure_fallback (s : st W) (code : Z) (msg text : string) :
  fst (urlopen update (world s)) = Raise (HTTPError code msg text) ->
  code = 404 \/ code = 400 ->
  let s1 := after (UrlOpen update) (snd (urlopen update (world s))) s in
  ensure s
  = (void (fst (urlopen create (world s1))),
     after (UrlOpen create) (snd (urlopen create (world s1))) s1).
Proof.
  intros Hput Hcode s1.
  unfold ensure, ensure_prom_datasource, bind, try_except, ret.
  fold update create. rewrite http_run, Hput. fold s1.
  unfold update_failed, raise, ret.
  assert (Hin : bool_decide (code ∉ [404; 400]) = false).
  { apply bool_decide_eq_false. intros Hn. apply Hn.
    rewrite !elem_of_cons. destruct Hcode as [-> | ->]; auto. }
  rewrite Hin, http_run.
  now destruct (fst (urlopen create (world s1))).
Qed.

Lemma ensure_propagates (s : st W) (e : exn) :
  fst (urlopen update (world s)) = Raise e ->
  (forall code msg text,
      e = HTTPError code msg text -> code <> 404 /\ code <> 400) ->
  ensure s = (Raise e, after (UrlOpen update) (snd (urlopen update (world s))) s).
Proof.
  intros Hput Hother.
  unfold ensure, ensure_prom_datasource, bind, try_except, ret.
  fold update. rewrite http_run, Hput.
  destruct e as [code msg text | | |]; try reflexivity.
  unfold update_failed, raise.
  destruct (Hother code msg text eq_refl) as [H404 H400].
  assert (Hin : bool_decide (code ∉ [404; 400]) = true).
  { apply bool_decide_eq_true. rewrite !not_elem_of_cons.
    repeat split; auto. apply not_elem_of_nil. }
  now rewrite Hin.
Qed.

Lemma update_is_update : is_update grafana_url update.
Proof. split; reflexivity. Qed.

Lemma create_is_create : is_create grafana_url create.
Proof. split; reflexivity. Qed.

(** Against an upsert backend the operation succeeds from any state and
    leaves the data source present. *)
Lemma ensure_succeeds (present : W -> bool) (s : st W) :
  upsert_backend present grafana_url ->
  exists s1,
    ensure s = (Ret tt, s1) /\ present (world s1) = true
    /\ trace s1
       = trace s ++ (if present (world s) then [UrlOpen update]
                     else [UrlOpen update; UrlOpen create]).
Proof.
  intros [Hhit Hmiss Hnew]. destruct (present (world s)) eqn:P.
  - destruct (Hhit (world s) update update_is_update P) as (resp & w' & E & P').
    exists (after (UrlOpen update) w' s).
    assert (Hput : fst (urlopen update (world s)) = Ret resp) by now rewrite E.
    rewrite (ensure_updated s resp Hput), E. auto.
  - destruct (Hmiss (world s) update update_is_update P)
      as (msg & text & w1 & E & P1).
    destruct (Hnew w1 create create_is_create P1) as (resp & w2 & E2 & P2).
    exists (after (UrlOpen create) w2 (after (UrlOpen update) w1 s)).
    assert (Hput : fst (urlopen update (world s))
                   = Raise (HTTPError 404 msg text)) by now rewrite E.
    rewrite (ensure_fallback s 404 msg text Hput (or_introl eq_refl)), E.
    simpl. rewrite E2. simpl. repeat split; [exact P2 |].
    now rewrite <- app_assoc.
Qed.

(** C2. [ensure_prom_datasource] first PUTs the definition to
    [/api/datasources/uid/prom].  When the PUT succeeds nothing else is
    sent; when it fails with HTTP 404 or 400, and only then, the definition
    is POSTed to [/api/datasources] and the outcome of the POST is the
    outcome of the operation; every other failure of the PUT is raised to
    the caller with nothing else sent.  Hence, against a backend with
    upsert semantics, two calls in a row both succeed whether or not the
    data source existed at first, and the second is a plain update. *)
Theorem ensure_prom_datasource_upsert (s : st W) :
  let put := urlopen update (world s) in
  let s1 := after (UrlOpen update) (snd put) s in
  (forall resp, fst put = Ret resp -> ensure s = (Ret tt, s1))
  /\ (forall code msg text,
         fst put = Raise (HTTPError code msg text) ->
         code = 404 \/ code = 400 ->
         ensure s
         = (void (fst (urlopen create (world s1))),
            after (UrlOpen create) (snd (urlopen create (world s1))) s1))
  /\ (forall e,
         fst put = Raise e ->
         (forall code msg text,
             e = HTTPError code msg text -> code <> 404 /\ code <> 400) ->
         ensure s = (Raise e, s1))
  /\ (forall present,
         upsert_backend present grafana_url ->
         exists s2 s3,
           ensure s = (Ret tt, s2) /\ ensure s2 = (Ret tt, s3)
           /\ trace s3 = trace s2 ++ [UrlOpen update]).
Proof.
  intros put s1. split; [| split; [| split]].
  - intros resp Hput. now apply (ensure_updated s resp).
  - intros code msg text Hput Hcode. now apply (ensure_fallback s code msg text).
  - intros e Hput Hother. now apply ensure_propagates.
  - intros present Hback.
    destruct (ensure_succeeds present s Hback) as (s2 & E1 & P2 & _).
    destruct (ensure_succeeds present s2 Hback) as (s3 & E2 & _ & T3).
    rewrite P2 in T3. now exists s2, s3.
Qed.

End Ensure.

(** *** Reporting the outcome *)

Section Callback.
Variables (event : gmap string string) (context : lambda_context).
Variables url stack_id request_id logical_id : string.
Hypothesis has_url : event !! "ResponseURL" = Some url.
Hypothesis url_truthy : truthy url = true.
Hypothesis has_stack : event !! "StackId" = Some stack_id.
Hypothesis has_request : event !! "RequestId" = Some request_id.
Hypothesis has_logical : event !! "LogicalResourceId" = Some logical_id.

Let cb := callback url context stack_id request_id logical_id.

Lemma send_cfn_response_run status data reason (s : st W) :
  let req := cb status data reason in
  send_cfn_response event context status data reason s
  = (void (fst (urlopen req (world s))),
     after (UrlOpen req) (snd (urlopen req (world s))) s).
Proof.
  intros req. unfold send_cfn_response, subscript.
  rewrite has_url, has_stack, has_request, has_logical. simpl.
  rewrite url_truthy. simpl. unfold bind at 1 2 3. unfold ret at 1 2 3.
  fold (callback url context stack_id request_id logical_id status data
                 reason). fold cb. fold req.
  rewrite bind_void, http_run. reflexivity.
Qed.

Lemma callback_status_cb status data reason :
  callback_status url (UrlOpen (cb status data reason)) = Some status.
Proof.
  unfold callback_status, cb, callback, cfn_request, response_body. simpl.
  now rewrite String.eqb_refl.
Qed.

Lemma cb_not_backend status data reason :
  is_backend_call (UrlOpen (cb status data reason)) = false.
Proof. reflexivity. Qed.

Lemma cb_not_import status data reason :
  is_import (UrlOpen (cb status data reason)) = false.
Proof. reflexivity. Qed.

(** The branch taken for a request type other than Create and Update:
    one SUCCESS callback, and a FAILED one only if the first was refused. *)
Lemma delete_branch_run (environ : gmap string string) (s : st W) :
  default "Create" (event !! "RequestType") ∉ ["Create"; "Update"] ->
  let first := cb "SUCCESS" (Some [("Status", JStr "Deleted")]) None in
  let put := urlopen first (world s) in
  let s1 := after (UrlOpen first) (snd put) s in
  handler environ event context s
  = match fst put with
    | Ret _ => (Ret tt, s1)
    | Raise e =>
        let second := cb "FAILED" None (Some (str e)) in
        (void (fst (urlopen second (world s1))),
         after (UrlOpen second) (snd (urlopen second (world s1))) s1)
    end.
Proof.
  intros Hrt first put s1. unfold handler, try_except.
  rewrite (bool_decide_eq_false_2 _ Hrt), send_cfn_response_run.
  fold first put s1. destruct (fst put) as [resp|e]; simpl; [reflexivity |].
  now rewrite send_cfn_response_run.
Qed.

End Callback.

(** Whatever the event holds, [send_cfn_response] calls no backend: it
    sends nothing, or one request that carries no credential. *)
Lemma send_cfn_response_calls event context status data reason (s : st W) :
  exists calls,
    trace (snd (send_cfn_response event context status data reason s))
    = trace s ++ calls
    /\ List.filter is_backend_call calls = [].
Proof.
  unfold send_cfn_response.
  destruct (negb (truthy (default EmptyString (event !! "ResponseURL")))).
  { exists []. simpl. now rewrite app_nil_r. }
  unfold subscript, bind, raise, ret.
  destruct (event !! "StackId");
    [| exists []; simpl; now rewrite app_nil_r].
  destruct (event !! "RequestId");
    [| exists []; simpl; now rewrite app_nil_r].
  destruct (event !! "LogicalResourceId");
    [| exists []; simpl; now rewrite app_nil_r].
  rewrite http_run.
  match goal with
  | |- context [after (UrlOpen ?r) _ _] => exists [UrlOpen r]
  end.
  now destruct (fst (urlopen _ (world s))).
Qed.

Lemma send_cfn_response_insert event context status data reason rt :
  send_cfn_response (<["RequestType" := rt]> event) context status data reason
  = send_cfn_response event context status data reason.
Proof.
  unfold send_cfn_response, subscript.
  now rewrite !lookup_insert_ne by discriminate.
Qed.

(** C4. For a lifecycle event with request type Delete and a callback URL
    the log of the handler holds exactly one SUCCESS callback, its first
    call, and no call to a backend: no client, no API key, no object-store
    fetch, no authenticated Grafana request.  When the callback is accepted
    it is the only call and the handler returns. *)
Theorem delete_reports_success_without_backend_calls
    (environ event : gmap string string) (context : lambda_context)
    (url : string) (s : st W) :
  event !! "RequestType" = Some "Delete" ->
  lifecycle_event event ->
  carries_response_url event url ->
  exists first later,
    trace (snd (handler environ event context s))
    = trace s ++ UrlOpen first :: later
    /\ callback_status url (UrlOpen first) = Some "SUCCESS"
    /\ List.filter (reports url "SUCCESS") later = []
    /\ List.filter is_backend_call (UrlOpen first :: later) = []
    /\ List.filter is_import (UrlOpen first :: later) = []
    /\ (forall resp,
           fst (urlopen first (world s)) = Ret resp ->
           later = [] /\ fst (handler environ event context s) = Ret tt).
Proof.
  intros Hrt ([sid Hsid] & [rid Hrid] & [lid Hlid]) [Hurl Htruthy].
  assert (Hbranch : default "Create" (event !! "RequestType")
                    ∉ ["Create"; "Update"]).
  { rewrite Hrt. simpl. rewrite !not_elem_of_cons.
    repeat split; try discriminate. apply not_elem_of_nil. }
  rewrite (delete_branch_run event context url sid rid lid Hurl Htruthy Hsid
             Hrid Hlid environ s Hbranch).
  set (first := callback url context sid rid lid "SUCCESS"
                  (Some [("Status", JStr "Deleted")]) None).
  exists first.
  destruct (fst (urlopen first (world s))) as [resp|e] eqn:Hput.
  - exists []. cbn [snd List.filter]. unfold first.
    rewrite !callback_status_cb, !cb_not_backend, !cb_not_import.
    repeat split; auto.
  - exists [UrlOpen (callback url context sid rid lid "FAILED" None
                              (Some (str e)))].
    cbn [snd List.filter]. unfold first, reports.
    rewrite !callback_status_cb, !cb_not_backend, !cb_not_import.
    simpl. change (String.eqb "FAILED" "SUCCESS") with false.
    repeat split; auto; try discriminate.
    now rewrite <- app_assoc.
Qed.

(** C9. The dispatch of the handler is two-way.  An event with no
    [RequestType] runs exactly as the same event with [RequestType] set to
    Create, that is, through the whole provisioning path.  An event whose
    [RequestType] is anything but Create or Update makes no backend call;
    if it is a lifecycle event with a callback URL, its first call is a
    SUCCESS callback whose [Data] is [{'Status': 'Deleted'}]. *)
Theorem request_type_dispatch
    (environ event : gmap string string) (context : lambda_context)
    (s : st W) :
  (event !! "RequestType" = None ->
     handler environ event context s
     = handler environ (<["RequestType" := "Create"]> event) context s
     /\ handler environ event context s
        = try_except
            (run* provision environ in
             send_cfn_response event context "SUCCESS"
               (Some [("Status", JStr "Provisioned")]) None)
            (fun e =>
               send_cfn_response event context "FAILED" None (Some (str e)))
            s)
  /\ (forall request_type,
         event !! "RequestType" = Some request_type ->
         request_type <> "Create" -> request_type <> "Update" ->
         (exists calls,
             trace (snd (handler environ event context s)) = trace s ++ calls
             /\ List.filter is_backend_call calls = [])
         /\ (forall url,
                lifecycle_event event -> carries_response_url event url ->
                exists first later,
                  trace (snd (handler environ event context s))
                  = trace s ++ UrlOpen first :: later
                  /\ callback_status url (UrlOpen first) = Some "SUCCESS"
                  /\ callback_member "Data" (UrlOpen first)
                     = Some (JObj [("Status", JStr "Deleted")]))).
Proof.
  split.
  - intros Hnone. split.
    + unfold handler. rewrite lookup_insert_eq, Hnone. simpl.
      unfold try_except, bind.
      destruct (provision environ s) as [[[]|e] s1];
        rewrite !send_cfn_response_insert; try reflexivity.
      destruct (send_cfn_response event context "SUCCESS" _ None s1)
        as [[[]|e] s2]; [reflexivity |].
      now rewrite send_cfn_response_insert.
    + unfold handler. now rewrite Hnone.
  - intros rt Hrt Hcreate Hupdate.
    assert (Hbranch : default "Create" (event !! "RequestType")
                      ∉ ["Create"; "Update"]).
    { rewrite Hrt. simpl. rewrite !not_elem_of_cons.
      repeat split; auto. apply not_elem_of_nil. }
    split.
    + unfold handler, try_except.
      rewrite (bool_decide_eq_false_2 _ Hbranch).
      destruct (send_cfn_response_calls event context "SUCCESS"
                  (Some [("Status", JStr "Deleted")]) None s)
        as (calls1 & T1 & B1).
      destruct (send_cfn_response event context "SUCCESS" _ None s)
        as [[[]|e] s1]; simpl in T1.
      * exists calls1. now simpl.
      * destruct (send_cfn_response_calls event context "FAILED" None
                    (Some (str e)) s1) as (calls2 & T2 & B2).
        exists (calls1 ++ calls2). split.
        -- now rewrite T2, T1, app_assoc.
        -- now rewrite List.filter_app, B1, B2.
    + intros url ([sid Hsid] & [rid Hrid] & [lid Hlid]) [Hurl Htruthy].
      rewrite (delete_branch_run event context url sid rid lid Hurl Htruthy
                 Hsid Hrid Hlid environ s Hbranch).
      set (first := callback url context sid rid lid "SUCCESS"
                      (Some [("Status", JStr "Deleted")]) None).
      exists first.
      destruct (fst (urlopen first (world s))) as [resp|e].
      * exists []. unfold first. rewrite callback_status_cb.
        simpl. repeat split.
      * exists [UrlOpen (callback url context sid rid lid "FAILED" None
                                  (Some (str e)))].
        unfold first. rewrite callback_status_cb.
        simpl. rewrite <- app_assoc. repeat split.
Qed.

(** *** What provisioning calls *)

Lemma fetches_app (t1 t2 : list call) :
  fetches (t1 ++ t2) = fetches t1 ++ fetches t2.
Proof.
  induction t1 as [|c t1 IH]; [reflexivity |].
  destruct c; simpl; now rewrite IH.
Qed.

Lemma backend_not_callback (url : string) (c : call) :
  is_backend_call c = true -> is_callback url c = false.
Proof.
  unfold is_callback, callback_status.
  destruct c as [| | |req]; try reflexivity. simpl. intros Hauth.
  destruct (req_method req); try reflexivity.
  destruct (req_data req); try reflexivity.
  now rewrite Hauth, andb_false_r.
Qed.

Lemma backend_calls_no_callback (url : string) (calls : list call) :
  Forall (fun c => is_backend_call c = true) calls ->
  List.filter (is_callback url) calls = [].
Proof.
  induction 1 as [|c calls Hc _ IH]; [reflexivity |].
  simpl. now rewrite (backend_not_callback url c Hc).
Qed.

(** A run of [m] from [s] that calls backends only and whose fetches are
    an initial part of those of [uris], all of them when [m] returns. *)
Definition progress (uris : list string) (m : M (st W) unit) (s : st W)
  : Prop :=
  exists calls rest,
    trace (snd (m s)) = trace s ++ calls
    /\ Forall (fun c => is_backend_call c = true) calls
    /\ locators uris = fetches calls ++ rest
    /\ (fst (m s) = Ret tt -> rest = []).

Lemma progress_stop uris (m : M (st W) unit) (s : st W) (e : exn) :
  m s = (Raise e, s) -> progress uris m s.
Proof.
  intros E. exists [], (locators uris). rewrite E. simpl.
  rewrite app_nil_r. repeat split; [constructor | discriminate].
Qed.

Lemma progress_after uris (m m' : M (st W) unit) (s s1 : st W) pre :
  m s = m' s1 ->
  trace s1 = trace s ++ pre ->
  Forall (fun c => is_backend_call c = true) pre ->
  fetches pre = [] ->
  progress uris m' s1 -> progress uris m s.
Proof.
  intros E T B F (calls & rest & T' & B' & L & R).
  exists (pre ++ calls), rest. rewrite E, T', T, fetches_app, F.
  rewrite app_assoc. repeat split; auto. now apply Forall_app.
Qed.

Lemma import_from_calls (s3 : client) (endpoint api_key uri : string)
    (s : st W) :
  exists calls,
    trace (snd (import_from s3 endpoint api_key uri s)) = trace s ++ calls
    /\ Forall (fun c => is_backend_call c = true) calls
    /\ fetches calls = locator uri.
Proof.
  unfold import_from, bind, get_dashboard_json, locator.
  destruct (negb (truthy uri) || negb (startswith uri "s3://")).
  { exists []. simpl. rewrite app_nil_r. repeat split. constructor. }
  destruct (partition uri "s3://") as [[? ?] rest].
  destruct (partition rest "/") as [[bucket ?] key].
  unfold bind. rewrite perform_run.
  destruct (s3_get_object bucket key (world s)) as [[text|e] w1]; simpl.
  - destruct (truthy text).
    + unfold import_dashboard, bind, lift.
      destruct (json_loads text) as [doc|e].
      * rewrite http_run.
        exists [GetObject bucket key;
                UrlOpen (import_request endpoint api_key doc)].
        destruct (fst (urlopen _ _)); simpl; rewrite <- app_assoc;
          repeat split; repeat constructor.
      * exists [GetObject bucket key]. simpl.
        repeat split; repeat constructor.
    + exists [GetObject bucket key]. simpl.
      repeat split; repeat constructor.
  - exists [GetObject bucket key]. simpl.
    repeat split; repeat constructor.
Qed.

Lemma for_each_progress (s3 : client) (endpoint api_key : string) uris
    (s : st W) :
  progress uris (for_each uris (import_from s3 endpoint api_key)) s.
Proof.
  revert s; induction uris as [|uri uris IH]; intros s.
  - exists [], []. simpl. rewrite app_nil_r. repeat split. constructor.
  - destruct (import_from_calls s3 endpoint api_key uri s)
      as (calls1 & T1 & B1 & F1).
    unfold progress.
    assert (E : for_each (uri :: uris) (import_from s3 endpoint api_key) s
                = match import_from s3 endpoint api_key uri s with
                  | (Ret _, s1) =>
                      for_each uris (import_from s3 endpoint api_key) s1
                  | (Raise e, s1) => (Raise e, s1)
                  end) by reflexivity.
    rewrite E. clear E.
    destruct (import_from s3 endpoint api_key uri s) as [[[]|e] s1];
      simpl in T1.
    + destruct (IH s1) as (calls2 & rest & T2 & B2 & L2 & R2).
      exists (calls1 ++ calls2), rest.
      rewrite T2, T1, fetches_app, F1, <- !app_assoc.
      unfold locators in *. simpl. rewrite L2.
      repeat split; auto. now apply Forall_app.
    + exists calls1, (locators uris). simpl. rewrite F1.
      repeat split; auto. discriminate.
Qed.

Lemma ensure_calls (grafana_url api_key region amp_workspace_id : string)
    (s : st W) :
  exists calls,
    trace (snd (ensure_prom_datasource grafana_url api_key region
                                       amp_workspace_id s))
    = trace s ++ calls
    /\ Forall (fun c => is_backend_call c = true) calls
    /\ fetches calls = [].
Proof.
  unfold ensure_prom_datasource, bind, try_except, ret.
  rewrite http_run.
  set (update := update_request grafana_url api_key region amp_workspace_id).
  set (create := create_request grafana_url api_key region amp_workspace_id).
  destruct (fst (urlopen update (world s))) as [resp|e].
  - exists [UrlOpen update]. repeat split; repeat constructor.
  - destruct e as [code msg text| | |];
      try solve [exists [UrlOpen update]; repeat split; repeat constructor].
    unfold update_failed, raise, ret.
    destruct (bool_decide (code ∉ [404; 400])).
    + exists [UrlOpen update]. repeat split; repeat constructor.
    + rewrite http_run. exists [UrlOpen update; UrlOpen create].
      destruct (fst (urlopen create _)); simpl; rewrite <- app_assoc;
        repeat split; repeat constructor.
Qed.

(** A computation that calls backends only and fetches nothing. *)
Definition quiet {A} (m : M (st W) A) : Prop :=
  forall s, exists calls,
    trace (snd (m s)) = trace s ++ calls
    /\ Forall (fun c => is_backend_call c = true) calls
    /\ fetches calls = [].

Lemma quiet_ret {A} (a : A) : quiet (ret a).
Proof.
  intros s. exists []. simpl. rewrite app_nil_r. repeat split. constructor.
Qed.

Lemma quiet_raise {A} (e : exn) : quiet (@raise (st W) A e).
Proof.
  intros s. exists []. simpl. rewrite app_nil_r. repeat split. constructor.
Qed.

Lemma quiet_bind {A B} (m : M (st W) A) (k : A -> M (st W) B) :
  quiet m -> (forall a, quiet (k a)) -> quiet (bind m k).
Proof.
  intros Hm Hk s. destruct (Hm s) as (calls1 & T1 & B1 & F1).
  unfold bind. destruct (m s) as [[a|e] s1]; simpl in T1.
  - destruct (Hk a s1) as (calls2 & T2 & B2 & F2).
    exists (calls1 ++ calls2).
    rewrite T2, T1, fetches_app, F1, F2, <- app_assoc.
    repeat split. now apply Forall_app.
  - now exists calls1.
Qed.

Lemma quiet_subscript (d : gmap string string) (k : string) :
  quiet (subscript d k).
Proof.
  unfold subscript. destruct (d !! k); [apply quiet_ret | apply quiet_raise].
Qed.

Lemma quiet_perform {A} (c : call) (f : W -> res A * W) :
  is_backend_call c = true -> fetches [c] = [] -> quiet (perform c f).
Proof.
  intros Hc Hf s. exists [c]. rewrite perform_run. simpl.
  repeat split; [| exact Hf]. now repeat constructor.
Qed.

Lemma quiet_new_client (service region_name : string) :
  quiet (new_client service region_name).
Proof.
  apply quiet_bind; [now apply quiet_perform | intros; apply quiet_ret].
Qed.

Lemma progress_bind {A} uris (m : M (st W) A) (k : A -> M (st W) unit)
    (s : st W) :
  quiet m -> (forall a s1, progress uris (k a) s1) ->
  progress uris (bind m k) s.
Proof.
  intros Hm Hk. destruct (Hm s) as (calls1 & T1 & B1 & F1).
  destruct (m s) as [[a|e] s1] eqn:E; simpl in T1.
  - apply (progress_after uris _ (k a) s s1 calls1); auto.
    unfold bind. now rewrite E.
  - exists calls1, (locators uris). unfold bind. rewrite E. simpl.
    rewrite F1. repeat split; auto. discriminate.
Qed.

(** Provisioning calls backends only, and fetches the locators of
    [DASHBOARD_URIS] from the left, up to the point where it stops. *)
Lemma provision_progress (environ : gmap string string) (s : st W) :
  progress (dashboard_uris (default EmptyString (environ !! "DASHBOARD_URIS")))
           (provision environ) s.
Proof.
  unfold provision.
  repeat (apply progress_bind; [apply quiet_subscript | intros ? ?]).
  apply progress_bind; [apply quiet_new_client | intros grafana ?].
  apply progress_bind; [apply quiet_new_client | intros bucket_client ?].
  apply progress_bind; [now apply quiet_perform | intros api_key_resp ?].
  apply progress_bind; [apply quiet_subscript | intros api_key ?].
  apply progress_bind; [intros s'; apply ensure_calls | intros [] ?].
  apply for_each_progress.
Qed.

(** *** The loop over the locators *)

Lemma for_each_app {A} (body : A -> M (st W) unit) (xs ys : list A)
    (s : st W) :
  for_each (xs ++ ys) body s
  = (run* for_each xs body in for_each ys body) s.
Proof.
  revert s; induction xs as [|x xs IH]; intros s; [reflexivity |].
  simpl. unfold bind.
  destruct (body x s) as [[[]|e] s1]; [| reflexivity].
  rewrite IH. reflexivity.
Qed.

(** An exception in the body ends the loop on the spot. *)
Lemma for_each_stops {A} (body : A -> M (st W) unit) (before later : list A)
    (failing : A) (s s1 s2 : st W) (e : exn) :
  for_each before body s = (Ret tt, s1) ->
  body failing s1 = (Raise e, s2) ->
  for_each (before ++ failing :: later) body s = (Raise e, s2).
Proof.
  intros Hbefore Hfail. rewrite for_each_app. unfold bind at 1.
  rewrite Hbefore. simpl. unfold bind. now rewrite Hfail.
Qed.

Lemma startswith_refl (t : string) : startswith t t = true.
Proof.
  induction t as [|c t IH]; simpl; [reflexivity |].
  now rewrite Ascii.eqb_refl.
Qed.

Lemma contains_or_else (m d : string) :
  contains (or_else (Some m) d) m = true.
Proof.
  unfold or_else. destruct m as [|c m]; simpl.
  - now destruct d.
  - now rewrite Ascii.eqb_refl, startswith_refl.
Qed.

(** C1, as amended.  For a lifecycle event with a callback URL whose
    endpoint accepts the PUT, the handler returns without an exception and
    its log ends with the one lifecycle callback of the run; every call
    before it is a call to a backend.  On Create and Update the calls
    before the callback are those of the provisioning steps: when these all
    succeed the callback reports SUCCESS, and when one of them throws the
    log stops at that step and the callback reports FAILED with a [Reason]
    that contains the message of the exception.  On any other request type
    the callback is the only call and reports SUCCESS.  In the loop over
    the locators, a step that throws is the last one run. *)
Theorem handler_reports_exactly_once
    (environ event : gmap string string) (context : lambda_context)
    (url : string) (s : st W) :
  lifecycle_event event ->
  carries_response_url event url ->
  accepts url ->
  fst (handler environ event context s) = Ret tt
  /\ (exists calls last,
         trace (snd (handler environ event context s))
         = trace s ++ calls ++ [UrlOpen last]
         /\ List.filter (is_callback url) calls = []
         /\ is_callback url (UrlOpen last) = true
         /\ is_import (UrlOpen last) = false
         /\ if bool_decide (default "Create" (event !! "RequestType")
                            ∈ ["Create"; "Update"])
            then
              trace (snd (provision environ s)) = trace s ++ calls
              /\ match fst (provision environ s) with
                 | Ret _ =>
                     callback_status url (UrlOpen last) = Some "SUCCESS"
                 | Raise e =>
                     callback_status url (UrlOpen last) = Some "FAILED"
                     /\ exists reason,
                          callback_member "Reason" (UrlOpen last)
                          = Some (JStr reason)
                          /\ contains reason (str e) = true
                 end
            else
              calls = []
              /\ callback_status url (UrlOpen last) = Some "SUCCESS")
  /\ (forall s3 endpoint api_key before failing later s0 s1 s2 e,
         for_each before (import_from s3 endpoint api_key) s0 = (Ret tt, s1) ->
         import_from s3 endpoint api_key failing s1 = (Raise e, s2) ->
         for_each (before ++ failing :: later)
                  (import_from s3 endpoint api_key) s0
         = (Raise e, s2)).
Proof.
  intros ([sid Hsid] & [rid Hrid] & [lid Hlid]) [Hurl Htruthy] Haccept.
  pose proof (send_cfn_response_run event context url sid rid lid Hurl
                Htruthy Hsid Hrid Hlid) as Hsend.
  assert (Hput : forall status data reason s0,
             exists resp w',
               urlopen (callback url context sid rid lid status data reason)
                       (world s0) = (Ret resp, w')).
  { intros. now apply Haccept. }
  assert (Hcb : forall status data reason,
             is_callback url
               (UrlOpen (callback url context sid rid lid status data reason))
             = true).
  { intros. unfold is_callback. now rewrite callback_status_cb. }
  split; [| split];
    [| | intros ? ? ? before failing later s0 s1 s2 e Hb Hf;
         exact (for_each_stops _ before later failing s0 s1 s2 e Hb Hf)].
  - unfold handler, try_except, bind.
    destruct (bool_decide _).
    + destruct (provision environ s) as [[[]|e] s1].
      * rewrite Hsend. destruct (Hput "SUCCESS"
            (Some [("Status", JStr "Provisioned")]) None s1)
          as (resp & w' & ->). reflexivity.
      * rewrite Hsend. destruct (Hput "FAILED" None (Some (str e)) s1)
          as (resp & w' & ->). reflexivity.
    + rewrite Hsend. destruct (Hput "SUCCESS"
          (Some [("Status", JStr "Deleted")]) None s) as (resp & w' & ->).
      reflexivity.
  - unfold handler, try_except, bind.
    destruct (bool_decide _).
    + destruct (provision_progress environ s)
        as (calls & rest & T & B & _ & _).
      destruct (provision environ s) as [[[]|e] s1]; simpl in T.
      * rewrite Hsend. destruct (Hput "SUCCESS"
            (Some [("Status", JStr "Provisioned")]) None s1)
          as (resp & w' & ->).
        exists calls, (callback url context sid rid lid "SUCCESS"
                         (Some [("Status", JStr "Provisioned")]) None).
        cbn [fst snd trace after void]. rewrite T, <- app_assoc.
        rewrite Hcb, callback_status_cb, cb_not_import.
        repeat split; auto using backend_calls_no_callback.
      * rewrite Hsend. destruct (Hput "FAILED" None (Some (str e)) s1)
          as (resp & w' & ->).
        exists calls, (callback url context sid rid lid "FAILED" None
                         (Some (str e))).
        cbn [fst snd trace after void]. rewrite T, <- app_assoc.
        rewrite Hcb, callback_status_cb, cb_not_import.
        repeat split; auto using backend_calls_no_callback.
        eexists. split; [reflexivity | apply contains_or_else].
    + rewrite Hsend. destruct (Hput "SUCCESS"
          (Some [("Status", JStr "Deleted")]) None s) as (resp & w' & ->).
      exists [], (callback url context sid rid lid "SUCCESS"
                    (Some [("Status", JStr "Deleted")]) None).
      cbn [fst snd trace after void app]. rewrite Hcb, callback_status_cb, cb_not_import.
      repeat split.
Qed.


(** The payload of an import by the handler. *)
Lemma import_dashboard_payload (grafana_url api_key text : string)
    (doc : json) (s : st W) :
  json_loads text = Ret doc ->
  trace (snd (import_dashboard grafana_url api_key text s))
  = trace s ++ [UrlOpen (import_request grafana_url api_key doc)].
Proof.
  intros Hdoc. unfold import_dashboard, bind, lift. rewrite Hdoc, http_run.
  now destruct (fst (urlopen _ _)).
Qed.

Lemma import_dashboard_unparsed (grafana_url api_key text : string)
    (e : exn) (s : st W) :
  json_loads text = Raise e ->
  import_dashboard grafana_url api_key text s = (Raise e, s).
Proof.
  intros Hdoc. unfold import_dashboard, bind, lift. now rewrite Hdoc.
Qed.

End Facts.

(** The locators named in the specification are all skipped. *)
Example skipped_examples :
  List.map (fun uri => negb (truthy uri) || negb (startswith uri "s3://"))
           [EmptyString; "http://bucket/key.json"; "s3:/missing-slash"]
  = [true; true; true].
Proof. reflexivity. Qed.

Lemma malformed_locator_skipped_witness :
  let s3 := {| service := "s3"; region_name := "eu-west-1" |} in
  let s := Samples.start Samples.fresh in
  @get_dashboard_json _ (Samples.sandbox_cloud true) s3 "s3:/missing-slash" s
  = (Ret None, s).
Proof.
  intros s3 s.
  exact (proj1 (@malformed_locator_skipped Samples.sample_lib _
                  (Samples.sandbox_cloud true) s3 "s3:/missing-slash" s
                  (or_intror eq_refl))).
Defined.

Lemma slashless_locator_is_fetched_witness :
  let s3 := {| service := "s3"; region_name := "eu-west-1" |} in
  let s := Samples.start Samples.fresh in
  trace (snd (@get_dashboard_json _ (Samples.sandbox_cloud true) s3
                "s3://bucket" s))
  = [GetObject "bucket" EmptyString].
Proof.
  intros s3 s.
  pose proof (@slashless_locator_is_fetched Samples.sample_lib _
                (Samples.sandbox_cloud true) s3 "bucket" s eq_refl) as [E _].
  change ("s3://" +:+ "bucket") with "s3://bucket" in E.
  rewrite E. reflexivity.
Defined.

(** *** The sample cloud *)

Definition callback_url : string := "https://cfn.example/callback".
Definition grafana_endpoint : string :=
  "https://g-xyz.grafana-workspace.eu-west-1.amazonaws.com".

Lemma sandbox_upsert (callback_ok : bool) :
  @upsert_backend _ (Samples.sandbox_cloud callback_ok) Samples.has_prom
                  grafana_endpoint.
Proof.
  constructor; intros w [] [Hm Hu] Hp; simpl in Hm, Hu; subst;
    unfold urlopen, Samples.sandbox_cloud, Samples.sandbox_urlopen; simpl;
    rewrite Hp.
  - now exists Samples.ok, w.
  - now exists "Not Found", "{}", w.
  - eexists Samples.ok, _. split; reflexivity.
Qed.

Lemma sandbox_accepts : @accepts _ (Samples.sandbox_cloud true) callback_url.
Proof.
  intros w [] Hm Hu; simpl in Hm, Hu; subst.
  now exists Samples.ok, w.
Qed.

Lemma sample_is_lifecycle_event (request_type : string) :
  lifecycle_event (Samples.sample_event request_type).
Proof. repeat split; eexists; reflexivity. Qed.

Lemma sample_carries_url (request_type : string) :
  carries_response_url (Samples.sample_event request_type) callback_url.
Proof. split; reflexivity. Qed.

Lemma ensure_prom_datasource_upsert_witness :
  exists s2 s3,
    @ensure_prom_datasource _ (Samples.sandbox_cloud true) grafana_endpoint
      "secret" "eu-west-1" "ws-1" (Samples.start Samples.fresh) = (Ret tt, s2)
    /\ @ensure_prom_datasource _ (Samples.sandbox_cloud true)
         grafana_endpoint "secret" "eu-west-1" "ws-1" s2 = (Ret tt, s3)
    /\ List.length (trace s3) = 3%nat.
Proof.
  destruct (proj2 (proj2 (proj2
              (@ensure_prom_datasource_upsert _ (Samples.sandbox_cloud true)
                 grafana_endpoint "secret" "eu-west-1" "ws-1"
                 (Samples.start Samples.fresh))))
              Samples.has_prom (sandbox_upsert true))
    as (s2 & s3 & E1 & E2 & T).
  exists s2, s3. repeat split; try assumption.
  rewrite T. vm_compute in E1. injection E1 as <-. reflexivity.
Defined.

Lemma delete_reports_success_without_backend_calls_witness :
  exists first later,
    trace (snd (@handler Samples.sample_lib _ (Samples.sandbox_cloud true)
                  Samples.sample_environ (Samples.sample_event "Delete")
                  Samples.sample_context (Samples.start Samples.fresh)))
    = UrlOpen first :: later
    /\ callback_status callback_url (UrlOpen first) = Some "SUCCESS"
    /\ List.filter is_backend_call (UrlOpen first :: later) = [].
Proof.
  destruct (@delete_reports_success_without_backend_calls
              Samples.sample_lib _ (Samples.sandbox_cloud true)
              Samples.sample_environ (Samples.sample_event "Delete")
              Samples.sample_context callback_url
              (Samples.start Samples.fresh) eq_refl
              (sample_is_lifecycle_event "Delete")
              (sample_carries_url "Delete"))
    as (first & later & T & S & _ & B & _).
  exists first, later. repeat split; assumption.
Defined.

Lemma handler_reports_exactly_once_witness :
  fst (@handler Samples.sample_lib _ (Samples.sandbox_cloud true)
         Samples.sample_environ (Samples.sample_event "Create")
         Samples.sample_context (Samples.start Samples.fresh))
  = Ret tt.
Proof.
  exact (proj1 (@handler_reports_exactly_once
                  Samples.sample_lib _ (Samples.sandbox_cloud true)
                  Samples.sample_environ (Samples.sample_event "Create")
                  Samples.sample_context callback_url
                  (Samples.start Samples.fresh)
                  (sample_is_lifecycle_event "Create")
                  (sample_carries_url "Create") sandbox_accepts)).
Defined.

Lemma request_type_dispatch_witness :
  exists calls,
    trace (snd (@handler Samples.sample_lib _ (Samples.sandbox_cloud true)
                  Samples.sample_environ (Samples.sample_event "Rollback")
                  Samples.sample_context (Samples.start Samples.fresh)))
    = calls
    /\ List.filter is_backend_call calls = [].
Proof.
  destruct (proj1 (proj2 (@request_type_dispatch
              Samples.sample_lib _ (Samples.sandbox_cloud true)
              Samples.sample_environ (Samples.sample_event "Rollback")
              Samples.sample_context (Samples.start Samples.fresh))
              "Rollback" eq_refl ltac:(discriminate) ltac:(discriminate)))
    as (calls & T & B).
  exists calls. split; assumption.
Defined.

(** C1 as stated fails when the callback endpoint refuses the PUT (an
    expired pre-signed URL, say): provisioning succeeds, the SUCCESS
    callback raises, the handler of the exception sends a second callback,
    FAILED, which raises again, and that exception leaves the handler. *)
Lemma handler_lets_callback_failure_escape :
  let run := @handler Samples.sample_lib _ (Samples.sandbox_cloud false)
               Samples.sample_environ (Samples.sample_event "Create")
               Samples.sample_context (Samples.start Samples.fresh) in
  fst run = Raise (HTTPError 403 "Forbidden" EmptyString)
  /\ List.map (callback_status callback_url)
              (List.filter (is_callback callback_url) (trace (snd run)))
     = [Some "SUCCESS"; Some "FAILED"].
Proof. vm_compute. split; reflexivity. Qed.

(** The run of the handler on the sample configuration fetches [a.json]
    and then [c.json]. *)
Example sample_run_fetches :
  fetches (trace (snd (@handler Samples.sample_lib _
                         (Samples.sandbox_cloud true)
                         Samples.sample_environ (Samples.sample_event "Create")
                         Samples.sample_context
                         (Samples.start Samples.fresh))))
  = [("b", "a.json"); ("b", "c.json")].
Proof. vm_compute. reflexivity. Qed.

End ProvisionerFacts.

(** * Properties of the stand-alone importer *)

Module ImporterFacts.
Import Importer.

Section Facts.
Context `{PyLib} (environ : gmap string string).

Local Open Scope Q_scope.

(** *** One round of the loop *)

(** The machine after one health check. *)
Definition checked (h : host) : host :=
  {| now := now h + took h 0; net := net h;
     sent := sent h ++ [health_request environ];
     files := files h; stdout := stdout h |}.

(** The machine after one health check that did not answer 200 and the
    sleep that follows it. *)
Definition next (h : host) : host := snd (time_sleep 2 (checked h)).

Lemma health_check_run (h : host) :
  health_check environ h = (Ret (ready_at h 0), checked h).
Proof.
  unfold health_check, try_except, bind, ret, urlopen, ready_at, checked, took.
  rewrite Nat.add_0_r.
  now destruct (net h (List.length (sent h))) as [d [resp|e]].
Qed.

Lemma poll_eq (fuel : nat) (deadline : Q) (h : host) :
  poll environ (S fuel) deadline h
  = if Qlt_le_dec (now h) deadline then
      if ready_at h 0 then Some (Ret tt, checked h)
      else poll environ fuel deadline (next h)
    else Some (Raise not_ready, h).
Proof.
  simpl. rewrite health_check_run.
  destruct (Qlt_le_dec (now h) deadline); [| reflexivity].
  now destruct (ready_at h 0).
Qed.

Lemma sent_next (h : host) :
  List.length (sent (next h)) = S (List.length (sent h)).
Proof. simpl. rewrite length_app. simpl. lia. Qed.

Lemma took_next (h : host) (i : nat) : took (next h) i = took h (S i).
Proof. unfold took. now rewrite sent_next, Nat.add_succ_r. Qed.

Lemma ready_at_next (h : host) (i : nat) :
  ready_at (next h) i = ready_at h (S i).
Proof. unfold ready_at. now rewrite sent_next, Nat.add_succ_r. Qed.

Lemma poll_time_next (h : host) (i : nat) :
  poll_time (next h) i = poll_time h (S i).
Proof.
  induction i as [|i IH]; [reflexivity |].
  simpl poll_time at 1. now rewrite IH, took_next.
Qed.


(** *** What a finished run of the loop did *)

(** The loop returned at the [k]-th health check: that check started
    before the deadline and answered 200, and none before it did. *)
Definition returned_at (deadline : Q) (h : host) (k : nat) (h' : host)
  : Prop :=
  ready_at h k = true /\ poll_time h k < deadline
  /\ (forall i, (i < k)%nat ->
                ready_at h i = false /\ poll_time h i < deadline)
  /\ List.length (sent h') = (List.length (sent h) + S k)%nat
  /\ now h' = poll_time h k + took h k.

(** The loop gave up before a [k]-th health check: the [k] checks made
    started before the deadline and none answered 200, and the clock had
    reached the deadline when the next one was due. *)
Definition gave_up_at (deadline : Q) (h : host) (k : nat) (h' : host)
  : Prop :=
  (forall i, (i < k)%nat ->
             ready_at h i = false /\ poll_time h i < deadline)
  /\ deadline <= poll_time h k
  /\ List.length (sent h') = (List.length (sent h) + k)%nat
  /\ now h' = poll_time h k.

Lemma poll_sound (fuel : nat) (deadline : Q) (h : host) (r : res unit)
    (h' : host) :
  poll environ fuel deadline h = Some (r, h') ->
  stdout h' = stdout h
  /\ ((r = Ret tt /\ exists k, returned_at deadline h k h')
      \/ (r = Raise not_ready /\ exists k, gave_up_at deadline h k h')).
Proof.
  revert h; induction fuel as [|fuel IH]; intros h; [discriminate |].
  rewrite poll_eq. destruct (Qlt_le_dec (now h) deadline) as [Hlt | Hge].
  - destruct (ready_at h 0) eqn:R0.
    + intros [= <- <-]. split; [reflexivity |]. left. split; [reflexivity |].
      exists 0%nat. repeat split; try assumption; try (intros; lia).
      simpl. rewrite length_app. simpl. lia.
    + intros Hrun. destruct (IH (next h) Hrun) as [Hout Hcases].
      split; [exact Hout |].
      assert (Hshift : forall k,
                 (forall i, (i < k)%nat ->
                            ready_at (next h) i = false
                            /\ poll_time (next h) i < deadline) ->
                 forall i, (i < S k)%nat ->
                           ready_at h i = false /\ poll_time h i < deadline).
      { intros k Hk [|i] Hi; [now split |].
        rewrite <- ready_at_next, <- poll_time_next. apply Hk. lia. }
      destruct Hcases as [[-> [k (Hr & Ht & Hbefore & Hsent & Hnow)]]
                         | [-> [k (Hbefore & Ht & Hsent & Hnow)]]].
      * left. split; [reflexivity |]. exists (S k).
        rewrite ready_at_next in Hr. rewrite poll_time_next in Ht, Hnow.
        rewrite took_next in Hnow. rewrite sent_next in Hsent.
        repeat split; try assumption; try (now apply Hshift); try lia;
          now apply (Hshift k Hbefore).
      * right. split; [reflexivity |]. exists (S k).
        rewrite poll_time_next in Ht, Hnow. rewrite sent_next in Hsent.
        repeat split; try assumption; try lia;
          now apply (Hshift k Hbefore).
  - intros [= <- <-]. split; [reflexivity |]. right. split; [reflexivity |].
    exists 0%nat. repeat split; try (intros; lia); try exact Hge.
Qed.

(** More fuel does not change the outcome of a finished run. *)
Lemma poll_more_fuel (fuel extra : nat) (deadline : Q) (h : host) out :
  poll environ fuel deadline h = Some out ->
  poll environ (fuel + extra) deadline h = Some out.
Proof.
  revert h; induction fuel as [|fuel IH]; intros h; [discriminate |].
  change (S fuel + extra)%nat with (S (fuel + extra)). rewrite !poll_eq.
  destruct (Qlt_le_dec (now h) deadline); [| trivial].
  destruct (ready_at h 0); [trivial | apply IH].
Qed.

(** The loop ends: every round moves the clock on by two seconds at
    least. *)
Lemma poll_terminates (n : nat) (deadline : Q) (h : host) :
  (forall i, 0 <= took h i) ->
  deadline - now h <= 2 * inject_Z (Z.of_nat n) ->
  exists out, poll environ (S n) deadline h = Some out.
Proof.
  revert h; induction n as [|n IH]; intros h Hpos Hleft; rewrite poll_eq;
    destruct (Qlt_le_dec (now h) deadline) as [Hlt | Hge]; eauto.
  - change (inject_Z (Z.of_nat 0)) with 0 in Hleft. lra.
  - destruct (ready_at h 0); [eauto |].
    apply IH.
    + intros i. rewrite took_next. apply Hpos.
    + rewrite Nat2Z.inj_succ in Hleft. unfold Z.succ in Hleft.
      rewrite inject_Z_plus in Hleft.
      change (now (next h)) with (now h + took h 0 + 2).
      specialize (Hpos 0%nat). change (inject_Z 1) with 1 in Hleft. lra.
Qed.

Lemma enough_fuel (deadline : Q) (h : host) :
  exists n, deadline - now h <= 2 * inject_Z (Z.of_nat n).
Proof.
  exists (Z.to_nat (Qceiling (deadline - now h))).
  pose proof (Qle_ceiling (deadline - now h)) as Hc.
  assert (Hz : (Qceiling (deadline - now h)
                <= Z.of_nat (Z.to_nat (Qceiling (deadline - now h))))%Z)
    by lia.
  rewrite Zle_Qle in Hz.
  assert (H0 : 0 <= inject_Z (Z.of_nat (Z.to_nat (Qceiling (deadline - now h))))).
  { change 0 with (inject_Z 0). rewrite <- Zle_Qle. lia. }
  lra.
Qed.


(** *** Importing *)

Lemma import_dashboard_sent (h : host) (text : string) (doc : json) :
  files h (DASHBOARD_PATH environ) = Ret text ->
  json_loads text = Ret doc ->
  sent (snd (import_dashboard environ h))
  = sent h ++ [import_request environ doc].
Proof.
  intros Hfile Hdoc.
  unfold import_dashboard, bind, open_read, lift, try_except, urlopen.
  rewrite Hfile, Hdoc.
  destruct (net h (List.length (sent h))) as [d [resp|e]]; [reflexivity |].
  now destruct e.
Qed.


End Facts.

(** *** Sample runs *)





(** An import that Grafana refuses with 412. *)
Example import_refused :
  let h := Samples.sample_host
             (fun _ => (0%Q, Raise (HTTPError 412 "Precondition Failed"
                                              "version-mismatch"))) in
  fst (@import_dashboard Samples.sample_lib ∅ h)
  = Raise (HTTPError 412 "Precondition Failed" "version-mismatch")
  /\ stdout (snd (@import_dashboard Samples.sample_lib ∅ h))
     = ["Import failed: 412"; "version-mismatch"].
Proof. vm_compute. split; reflexivity. Qed.

End ImporterFacts.

(** * The import envelope of both importers *)

Section Envelope.
Context `{PyLib} {W : Type} `{Provisioner.Cloud W}.

(** C3.  Whatever document the dashboard text parses to, the request each
    importer sends is a POST to [/api/dashboards/db] whose payload is
    [{dashboard: <the document>, overwrite: true, folderId: 0}], with the
    document as parsed; the handler authenticates with a bearer token, the
    stand-alone script with basic authentication. *)
Theorem import_payload_forced (text : string) (doc : json) :
  json_loads text = Ret doc ->
  (forall grafana_url api_key (s : Provisioner.st W),
      exists req,
        Provisioner.trace
          (snd (Provisioner.import_dashboard grafana_url api_key text s))
        = Provisioner.trace s ++ [Provisioner.UrlOpen req]
        /\ req_method req = POST
        /\ req_url req = grafana_url +:+ "/api/dashboards/db"
        /\ req_headers req = [("Authorization", "Bearer " +:+ api_key);
                              ("Content-Type", "application/json")]
        /\ req_data req = Some (JObj [("dashboard", doc);
                                      ("overwrite", JBool true);
                                      ("folderId", JInt 0)]))
  /\ (forall environ (h : Importer.host),
         Importer.files h (Importer.DASHBOARD_PATH environ) = Ret text ->
         exists req,
           Importer.sent (snd (Importer.import_dashboard environ h))
           = Importer.sent h ++ [req]
           /\ req_method req = POST
           /\ req_url req
              = Importer.GRAFANA_URL environ +:+ "/api/dashboards/db"
           /\ req_headers req
              = [("Authorization",
                  "Basic " +:+ b64encode (Importer.GRAFANA_USER environ
                                          +:+ ":"
                                          +:+ Importer.GRAFANA_PASS environ));
                 ("Content-Type", "application/json")]
           /\ req_data req = Some (JObj [("dashboard", doc);
                                         ("overwrite", JBool true);
                                         ("folderId", JInt 0)])).
Proof.
  intros Hdoc. split.
  - intros grafana_url api_key s.
    exists (Provisioner.import_request grafana_url api_key doc).
    split; [now apply ProvisionerFacts.import_dashboard_payload |].
    repeat split.
  - intros environ h Hfile. exists (Importer.import_request environ doc).
    split; [exact (ImporterFacts.import_dashboard_sent environ h text doc
                     Hfile Hdoc) |].
    repeat split.
Qed.

End Envelope.

Lemma sample_file_read (script : nat -> Q * res response) :
  Importer.files (Samples.sample_host script) (Importer.DASHBOARD_PATH ∅)
  = Ret (Samples.titled "overview").
Proof. reflexivity. Qed.

Lemma import_payload_forced_witness :
  exists req,
    Importer.sent
      (snd (@Importer.import_dashboard Samples.sample_lib ∅
              (Samples.sample_host (Samples.up_after 0 0))))
    = [req]
    /\ req_data req = Some (JObj [("dashboard",
                                   JObj [("title", JStr "overview")]);
                                  ("overwrite", JBool true);
                                  ("folderId", JInt 0)]).
Proof.
  destruct (proj2 (@import_payload_forced Samples.sample_lib _
                     (Samples.sandbox_cloud true)
                     (Samples.titled "overview")
                     (JObj [("title", JStr "overview")]) eq_refl)
                  ∅ (Samples.sample_host (Samples.up_after 0 0))
                  (sample_file_read _))
    as (req & Hsent & _ & _ & _ & Hdata).
  exists req. split; assumption.
Defined.

(** * Further properties of the provisioner *)

Module ProvisionerMore.
Import Provisioner ProvisionerFacts.



(** The three calls that precede every Grafana request. *)
Definition setup_calls (region workspace_id : string) : list call :=
  [Boto3Client "grafana" region; Boto3Client "s3" region;
   CreateWorkspaceApiKey "cdk-provision" "ADMIN" 3600 workspace_id].

(** A call made once the API key is known: an object-store fetch, or a
    request to a URL under [endpoint] that carries the key as bearer
    token. *)
Definition with_key (endpoint api_key : string) (c : call) : Prop :=
  match c with
  | GetObject _ _ => True
  | UrlOpen req =>
      startswith (req_url req) endpoint = true
      /\ req_headers req = bearer_headers api_key
  | _ => False
  end.

(** Whitespace or a comma. *)
Definition blank (c : ascii) : bool := isspace c || Ascii.eqb c ",".

Section More.
Context `{PyLib} {W : Type} `{Cloud W}.

(** *** The handler, branch by branch *)

Lemma handler_provisioning (environ event : gmap string string)
    (context : lambda_context) (s : st W) :
  default "Create" (event !! "RequestType") ∈ ["Create"; "Update"] ->
  handler environ event context s
  = match provision environ s with
    | (Ret _, s1) =>
        match send_cfn_response event context "SUCCESS"
                (Some [("Status", JStr "Provisioned")]) None s1 with
        | (Ret a, s2) => (Ret a, s2)
        | (Raise e, s2) =>
            send_cfn_response event context "FAILED" None (Some (str e)) s2
        end
    | (Raise e, s1) =>
        send_cfn_response event context "FAILED" None (Some (str e)) s1
    end.
Proof.
  intros Hrt. unfold handler, try_except, bind.
  rewrite (bool_decide_eq_true_2 _ Hrt).
  now destruct (provision environ s) as [[[]|e] s1].
Qed.

Lemma handler_other (environ event : gmap string string)
    (context : lambda_context) (s : st W) :
  default "Create" (event !! "RequestType") ∉ ["Create"; "Update"] ->
  handler environ event context s
  = match send_cfn_response event context "SUCCESS"
            (Some [("Status", JStr "Deleted")]) None s with
    | (Ret a, s2) => (Ret a, s2)
    | (Raise e, s2) =>
        send_cfn_response event context "FAILED" None (Some (str e)) s2
    end.
Proof.
  intros Hrt. unfold handler, try_except.
  now rewrite (bool_decide_eq_false_2 _ Hrt).
Qed.

Lemma send_without_url (event : gmap string string)
    (context : lambda_context) status data reason (s : st W) :
  truthy (default EmptyString (event !! "ResponseURL")) = false ->
  send_cfn_response event context status data reason s = (Ret tt, s).
Proof. intros Hurl. unfold send_cfn_response. now rewrite Hurl. Qed.

(** X1. An invocation whose event has no callback URL (the key is missing
    or its value is empty) never raises and sends no callback: on Create
    and Update it ends in the state provisioning left, whether provisioning
    succeeded or not, and on any other request type nothing changes. *)
Theorem handler_without_response_url (environ event : gmap string string)
    (context : lambda_context) (s : st W) :
  truthy (default EmptyString (event !! "ResponseURL")) = false ->
  handler environ event context s
  = (Ret tt,
     if bool_decide (default "Create" (event !! "RequestType")
                     ∈ ["Create"; "Update"])
     then snd (provision environ s) else s).
Proof.
  intros Hurl. case_bool_decide as Hrt.
  - rewrite (handler_provisioning _ _ _ _ Hrt).
    destruct (provision environ s) as [[[]|e] s1];
      now rewrite send_without_url.
  - rewrite (handler_other _ _ _ _ Hrt). now rewrite send_without_url.
Qed.






(** X3. Update is handled exactly as Create. *)
Theorem update_runs_as_create (environ event : gmap string string)
    (context : lambda_context) (s : st W) :
  event !! "RequestType" = Some "Update" ->
  handler environ event context s
  = handler environ (<["RequestType" := "Create"]> event) context s.
Proof.
  intros Hrt. unfold handler. rewrite lookup_insert_eq, Hrt. simpl.
  unfold try_except, bind.
  destruct (provision environ s) as [[[]|e] s1];
    rewrite !send_cfn_response_insert; try reflexivity.
  destruct (send_cfn_response event context "SUCCESS" _ None s1)
    as [[[]|e] s2]; [reflexivity |].
  now rewrite send_cfn_response_insert.
Qed.

(** *** Provisioning, step by step *)


(** With its four variables set, provisioning is three set-up calls, the
    data source, and the loop over the locators. *)
Lemma provision_eq (environ : gmap string string)
    (region workspace_id endpoint amp_workspace_id : string) (s : st W) :
  environ !! "AWS_REGION" = Some region ->
  environ !! "GRAFANA_WORKSPACE_ID" = Some workspace_id ->
  environ !! "GRAFANA_ENDPOINT" = Some endpoint ->
  environ !! "AMP_WORKSPACE_ID" = Some amp_workspace_id ->
  let uris :=
    dashboard_uris (default EmptyString (environ !! "DASHBOARD_URIS")) in
  let key_call :=
    CreateWorkspaceApiKey "cdk-provision" "ADMIN" 3600 workspace_id in
  provision environ s
  = match boto3_client "grafana" region (world s) with
    | (Raise e, w1) => (Raise e, after (Boto3Client "grafana" region) w1 s)
    | (Ret _, w1) =>
        let s1 := after (Boto3Client "grafana" region) w1 s in
        match boto3_client "s3" region w1 with
        | (Raise e, w2) => (Raise e, after (Boto3Client "s3" region) w2 s1)
        | (Ret _, w2) =>
            let s2 := after (Boto3Client "s3" region) w2 s1 in
            match grafana_create_workspace_api_key "cdk-provision" "ADMIN"
                    3600 workspace_id w2 with
            | (Raise e, w3) => (Raise e, after key_call w3 s2)
            | (Ret api_key_resp, w3) =>
                let s3 := after key_call w3 s2 in
                match api_key_resp !! "key" with
                | None => (Raise (KeyError "key"), s3)
                | Some api_key =>
                    (run* ensure_prom_datasource endpoint api_key region
                                                 amp_workspace_id in
                     for_each uris
                       (import_from {| service := "s3";
                                       region_name := region |}
                                    endpoint api_key)) s3
                end
            end
        end
    end.
Proof.
  intros Hr Hw He Ha uris key_call.
  unfold provision, subscript. rewrite Hr, Hw, He, Ha.
  unfold new_client, bind, ret. rewrite !perform_run.
  destruct (boto3_client "grafana" region (world s)) as [[[]|e] w1];
    [| reflexivity].
  cbn [fst snd]. rewrite !perform_run. cbn [world after].
  destruct (boto3_client "s3" region w1) as [[[]|e] w2]; [| reflexivity].
  cbn [fst snd]. rewrite !perform_run. cbn [world after].
  destruct (grafana_create_workspace_api_key "cdk-provision" "ADMIN" 3600
              workspace_id w2) as [[api_key_resp|e] w3]; [| reflexivity].
  cbn [fst snd]. destruct (api_key_resp !! "key"); reflexivity.
Qed.

(** *** What is sent once the key is known *)

(** Every call of [m] satisfies [P]. *)
Definition emits {A} (P : call -> Prop) (m : M (st W) A) : Prop :=
  forall s, exists calls,
    trace (snd (m s)) = trace s ++ calls /\ Forall P calls.

Lemma emits_ret {A} P (a : A) : emits P (ret a).
Proof. intros s. exists []. simpl. now rewrite app_nil_r. Qed.

Lemma emits_bind {A B} P (m : M (st W) A) (k : A -> M (st W) B) :
  emits P m -> (forall a, emits P (k a)) -> emits P (bind m k).
Proof.
  intros Hm Hk s. destruct (Hm s) as (calls1 & T1 & P1).
  unfold bind. destruct (m s) as [[a|e] s1]; simpl in T1.
  - destruct (Hk a s1) as (calls2 & T2 & P2).
    exists (calls1 ++ calls2). rewrite T2, T1, <- app_assoc.
    split; [reflexivity | now apply Forall_app].
  - now exists calls1.
Qed.

Lemma emits_for_each {A} P (body : A -> M (st W) unit) (xs : list A) :
  (forall x, emits P (body x)) -> emits P (for_each xs body).
Proof.
  intros Hbody. induction xs as [|x xs IH]; [apply emits_ret |].
  simpl. apply emits_bind; auto.
Qed.

Lemma ensure_with_key (endpoint api_key region amp_workspace_id : string) :
  emits (with_key endpoint api_key)
        (ensure_prom_datasource endpoint api_key region amp_workspace_id).
Proof.
  intros s. unfold ensure_prom_datasource, bind, try_except, ret.
  rewrite http_run.
  set (update := update_request endpoint api_key region amp_workspace_id).
  set (create := create_request endpoint api_key region amp_workspace_id).
  assert (Hu : with_key endpoint api_key (UrlOpen update)).
  { split; [apply startswith_app | reflexivity]. }
  assert (Hc : with_key endpoint api_key (UrlOpen create)).
  { split; [apply startswith_app | reflexivity]. }
  destruct (fst (urlopen update (world s))) as [resp|e].
  - exists [UrlOpen update]. split; [reflexivity | now apply List.Forall_cons].
  - destruct e as [code msg text| | |];
      try solve [exists [UrlOpen update];
                 split; [reflexivity | now apply List.Forall_cons]].
    unfold update_failed, raise, ret.
    destruct (bool_decide (code ∉ [404; 400])).
    + exists [UrlOpen update]. split; [reflexivity | now apply List.Forall_cons].
    + rewrite http_run. exists [UrlOpen update; UrlOpen create].
      destruct (fst (urlopen create _)); simpl; rewrite <- app_assoc;
        (split; [reflexivity |
           repeat (apply List.Forall_cons; [assumption |]);
           apply List.Forall_nil]).
Qed.

Lemma import_from_with_key (s3 : client) (endpoint api_key uri : string) :
  emits (with_key endpoint api_key) (import_from s3 endpoint api_key uri).
Proof.
  intros s. unfold import_from, bind, get_dashboard_json.
  destruct (negb (truthy uri) || negb (startswith uri "s3://")).
  { exists []. simpl. now rewrite app_nil_r. }
  destruct (partition uri "s3://") as [[? ?] rest].
  destruct (partition rest "/") as [[bucket ?] key].
  unfold bind. rewrite perform_run.
  destruct (s3_get_object bucket key (world s)) as [[text|e] w1]; simpl.
  - destruct (truthy text).
    + unfold import_dashboard, bind, lift.
      destruct (json_loads text) as [doc|e].
      * rewrite http_run.
        exists [GetObject bucket key;
                UrlOpen (import_request endpoint api_key doc)].
        destruct (fst (urlopen _ _)); simpl; rewrite <- app_assoc;
          (split; [reflexivity |]);
          repeat constructor; apply startswith_app.
      * exists [GetObject bucket key].
        split; [reflexivity | now repeat constructor].
    + exists [GetObject bucket key].
      split; [reflexivity | now repeat constructor].
  - exists [GetObject bucket key].
    split; [reflexivity | now repeat constructor].
Qed.

(** The calls of a provisioning run: an initial part of the set-up calls,
    or all three of them and then only calls made with the key. *)
Lemma provision_shape (environ : gmap string string)
    (region workspace_id endpoint amp_workspace_id : string) (s : st W) :
  environ !! "AWS_REGION" = Some region ->
  environ !! "GRAFANA_WORKSPACE_ID" = Some workspace_id ->
  environ !! "GRAFANA_ENDPOINT" = Some endpoint ->
  environ !! "AMP_WORKSPACE_ID" = Some amp_workspace_id ->
  exists calls,
    trace (snd (provision environ s)) = trace s ++ calls
    /\ ((exists n, calls = take n (setup_calls region workspace_id))
        \/ (exists api_key later,
               calls = setup_calls region workspace_id ++ later
               /\ Forall (with_key endpoint api_key) later)).
Proof.
  intros Hr Hw He Ha.
  rewrite (provision_eq environ region workspace_id endpoint
             amp_workspace_id s Hr Hw He Ha).
  destruct (boto3_client "grafana" region (world s)) as [[[]|e] w1].
  2:{ eexists. split; [reflexivity |]. left. now exists 1%nat. }
  cbv zeta.
  destruct (boto3_client "s3" region w1) as [[[]|e] w2].
  2:{ eexists. split; [simpl; now rewrite <- app_assoc |].
      left. now exists 2%nat. }
  destruct (grafana_create_workspace_api_key "cdk-provision" "ADMIN" 3600
              workspace_id w2) as [[api_key_resp|e] w3].
  2:{ eexists. split; [simpl; now rewrite <- !app_assoc |].
      left. now exists 3%nat. }
  destruct (api_key_resp !! "key") as [api_key|].
  2:{ eexists. split; [simpl; now rewrite <- !app_assoc |].
      left. now exists 3%nat. }
  match goal with
  | |- context [bind ?m ?k ?s0] =>
      destruct (emits_bind (with_key endpoint api_key) m k
                  (ensure_with_key endpoint api_key region amp_workspace_id)
                  (fun _ => emits_for_each _ _ _
                              (import_from_with_key _ endpoint api_key))
                  s0) as (later & T & P)
  end.
  exists (setup_calls region workspace_id ++ later). split.
  - rewrite T. simpl. now rewrite <- !app_assoc.
  - right. now exists api_key, later.
Qed.

(** X5. With its four variables set, provisioning asks for at most one
    API key, named [cdk-provision], with role ADMIN and a lifetime of 3600
    seconds, for the configured workspace; it fetches no object and sends
    no request before the two clients and the key were obtained, and makes
    no client and asks for no key afterwards. *)
Theorem provision_call_order (environ : gmap string string)
    (region workspace_id endpoint amp_workspace_id : string) (s : st W) :
  environ !! "AWS_REGION" = Some region ->
  environ !! "GRAFANA_WORKSPACE_ID" = Some workspace_id ->
  environ !! "GRAFANA_ENDPOINT" = Some endpoint ->
  environ !! "AMP_WORKSPACE_ID" = Some amp_workspace_id ->
  exists before later,
    trace (snd (provision environ s)) = trace s ++ before ++ later
    /\ (exists n, before = take n [Boto3Client "grafana" region;
                                   Boto3Client "s3" region;
                                   CreateWorkspaceApiKey "cdk-provision"
                                     "ADMIN" 3600 workspace_id])
    /\ Forall (fun c => match c with
                        | GetObject _ _ | UrlOpen _ => True
                        | _ => False
                        end) later
    /\ (later <> [] -> List.length before = 3%nat).
Proof.
  intros Hr Hw He Ha.
  destruct (provision_shape environ region workspace_id endpoint
              amp_workspace_id s Hr Hw He Ha)
    as (calls & T & [[n ->] | (api_key & later & -> & P)]).
  - exists (take n (setup_calls region workspace_id)), [].
    rewrite app_nil_r. repeat split; eauto. congruence.
  - exists (setup_calls region workspace_id), later.
    repeat split; auto; [now exists 3%nat |].
    eapply Forall_impl; [exact P |]. now intros [].
Qed.

(** X6. With its four variables set, every HTTP request of a
    provisioning run goes to a URL that starts with [GRAFANA_ENDPOINT] and
    carries the same bearer token in its [Authorization] header. *)
Theorem provision_requests_confined (environ : gmap string string)
    (region workspace_id endpoint amp_workspace_id : string) (s : st W) :
  environ !! "AWS_REGION" = Some region ->
  environ !! "GRAFANA_WORKSPACE_ID" = Some workspace_id ->
  environ !! "GRAFANA_ENDPOINT" = Some endpoint ->
  environ !! "AMP_WORKSPACE_ID" = Some amp_workspace_id ->
  exists calls api_key,
    trace (snd (provision environ s)) = trace s ++ calls
    /\ Forall (fun c => match c with
                        | UrlOpen req =>
                            startswith (req_url req) endpoint = true
                            /\ req_headers req
                               = [("Authorization", "Bearer " +:+ api_key);
                                  ("Content-Type", "application/json")]
                        | _ => True
                        end) calls.
Proof.
  intros Hr Hw He Ha.
  destruct (provision_shape environ region workspace_id endpoint
              amp_workspace_id s Hr Hw He Ha)
    as (calls & T & [[n ->] | (api_key & later & -> & P)]).
  - exists (take n (setup_calls region workspace_id)), EmptyString.
    split; [exact T |].
    apply Forall_take. now repeat constructor.
  - exists (setup_calls region workspace_id ++ later), api_key.
    split; [exact T |]. apply Forall_app. split; [now repeat constructor |].
    eapply Forall_impl; [exact P |]. now intros [].
Qed.

(** *** The list of locators *)

Lemma all_chars_app (p : ascii -> bool) (a b : string) :
  all_chars p (a +:+ b) = all_chars p a && all_chars p b.
Proof.
  induction a as [|c a IH]; [reflexivity |].
  simpl. now rewrite IH, andb_assoc.
Qed.

Lemma split_blank (text : string) :
  all_chars blank text = true ->
  Forall (fun piece => all_chars isspace piece = true) (split "," text).
Proof.
  induction text as [|c text IH]; simpl.
  - intros _. apply List.Forall_cons; [reflexivity | apply List.Forall_nil].
  - intros [Hc Htext]%andb_true_iff. specialize (IH Htext).
    destruct (Ascii.eqb c ",") eqn:E.
    + apply List.Forall_cons; [reflexivity | exact IH].
    + unfold blank in Hc. rewrite E, orb_false_r in Hc.
      destruct (split "," text) as [|p ps].
      * apply List.Forall_cons; [simpl; now rewrite Hc | apply List.Forall_nil].
      * apply Forall_cons in IH as [Hp Hps].
        apply List.Forall_cons; [simpl; now rewrite Hc, Hp | exact Hps].
Qed.

Lemma strip_spaces (piece : string) :
  all_chars isspace piece = true -> strip piece = EmptyString.
Proof.
  unfold strip. induction piece as [|c piece IH]; [reflexivity |].
  simpl. intros [Hc Hpiece]%andb_true_iff. rewrite Hc. now apply IH.
Qed.

(** X7. A [DASHBOARD_URIS] value that holds nothing but whitespace and
    commas (the empty value included) names no locator, and provisioning
    then fetches nothing from the object store; the same holds when the
    variable is not set. *)
Theorem blank_uris_fetch_nothing (environ : gmap string string) (s : st W) :
  all_chars blank (default EmptyString (environ !! "DASHBOARD_URIS")) = true ->
  dashboard_uris (default EmptyString (environ !! "DASHBOARD_URIS")) = []
  /\ fetches (trace (snd (provision environ s))) = fetches (trace s).
Proof.
  intros Hblank.
  assert (Hnone : dashboard_uris
                    (default EmptyString (environ !! "DASHBOARD_URIS")) = []).
  { unfold dashboard_uris. pose proof (split_blank _ Hblank) as Hpieces.
    induction Hpieces as [|piece pieces Hpiece _ IH]; [reflexivity |].
    simpl. now rewrite (strip_spaces piece Hpiece). }
  split; [exact Hnone |].
  destruct (provision_progress environ s) as (calls & rest & T & _ & L & _).
  rewrite Hnone in L. symmetry in L. apply app_eq_nil in L as [L _].
  now rewrite T, fetches_app, L, app_nil_r.
Qed.

(** X8. Every entry the handler takes from [DASHBOARD_URIS] is
    non-empty, holds no comma, and neither starts nor ends with
    whitespace. *)
Theorem dashboard_uris_normalised (s3_uris : string) :
  Forall (fun uri => truthy uri = true /\ free_of "," uri = true
                     /\ no_space (first_char uri)
                     /\ no_space (last_char uri))
         (dashboard_uris s3_uris).
Proof.
  apply List.Forall_forall. intros uri Hin. unfold dashboard_uris in Hin.
  apply List.filter_In in Hin as [Hin Htruthy].
  apply List.in_map_iff in Hin as (piece & <- & Hpiece).
  pose proof (split_free "," s3_uris) as Hfree.
  rewrite List.Forall_forall in Hfree. specialize (Hfree piece Hpiece).
  destruct (strip_spec piece) as (l & r & Hglue & _ & _ & Hfirst & Hlast).
  repeat split; try assumption.
  unfold free_of in *. rewrite Hglue, !all_chars_app in Hfree.
  apply andb_true_iff in Hfree as [_ Hfree].
  now apply andb_true_iff in Hfree as [Hfree _].
Qed.

(** *** One locator *)

Lemma partition_at (c : ascii) (before after : string) :
  free_of c before = true ->
  partition (before +:+ String c after) (String c EmptyString)
  = (before, String c EmptyString, after).
Proof.
  intros Hfree. unfold partition.
  assert (F : find_sep (String c EmptyString) (before +:+ String c after)
              = Some (before, after)).
  { induction before as [|d before IH]; rewrite find_sep_eq; simpl.
    - now rewrite Ascii.eqb_refl.
    - simpl in Hfree. apply andb_true_iff in Hfree as [Hd Hfree].
      apply negb_true_iff in Hd. rewrite Ascii.eqb_sym, Hd.
      now rewrite (IH Hfree). }
  now rewrite F.
Qed.

(** X9. A locator [s3://<bucket>/<key>] is cut at the first slash after
    the scheme: [get_dashboard_json] asks the object store for exactly that
    bucket and that key, slashes in the key included, and hands on the text
    or the exception it gets. *)
Theorem wellformed_locator_is_fetched (s3 : client) (bucket key : string)
    (s : st W) :
  free_of "/" bucket = true ->
  let answer := s3_get_object bucket key (world s) in
  get_dashboard_json s3 ("s3://" +:+ bucket +:+ "/" +:+ key) s
  = (match fst answer with
     | Ret text => Ret (Some text)
     | Raise e => Raise e
     end,
     after (GetObject bucket key) (snd answer) s).
Proof.
  intros Hfree answer.
  rewrite get_dashboard_json_s3.
  change ("/" +:+ key) with (String "/" key).
  now rewrite (partition_at "/" bucket key Hfree).
Qed.

Lemma import_from_fetched (s3 : client) (endpoint api_key uri : string)
    (bucket key : string) (s : st W) :
  locator uri = [(bucket, key)] ->
  import_from s3 endpoint api_key uri s
  = match s3_get_object bucket key (world s) with
    | (Ret text, w1) =>
        if truthy text
        then import_dashboard endpoint api_key text
               (after (GetObject bucket key) w1 s)
        else (Ret tt, after (GetObject bucket key) w1 s)
    | (Raise e, w1) => (Raise e, after (GetObject bucket key) w1 s)
    end.
Proof.
  unfold locator, import_from, bind, get_dashboard_json.
  destruct (negb (truthy uri) || negb (startswith uri "s3://"));
    [discriminate |].
  destruct (partition uri "s3://") as [[? ?] rest].
  destruct (partition rest "/") as [[b ?] k].
  intros [= -> ->]. unfold bind. rewrite perform_run.
  destruct (s3_get_object bucket key (world s)) as [[text|e] w1];
    cbn [fst snd ret]; [| reflexivity].
  now destruct (truthy text).
Qed.

(** X10. An object whose text is empty is skipped: the fetch is made, no
    dashboard is imported and no error is raised. *)
Theorem empty_object_is_skipped (s3 : client) (endpoint api_key uri : string)
    (bucket key : string) (s : st W) (w1 : W) :
  locator uri = [(bucket, key)] ->
  s3_get_object bucket key (world s) = (Ret EmptyString, w1) ->
  import_from s3 endpoint api_key uri s
  = (Ret tt, after (GetObject bucket key) w1 s).
Proof.
  intros Hloc Hget. rewrite (import_from_fetched _ _ _ _ _ _ _ Hloc), Hget.
  reflexivity.
Qed.

(** X11. A non-empty object whose text is not JSON stops the handler's import
    before anything is sent to Grafana: the exception of [json.loads]
    leaves the loop body with only the fetch logged, and the loop over the
    locators ends there. *)
Theorem unparsable_object_sends_nothing (s3 : client)
    (endpoint api_key uri : string) (bucket key text : string) (e : exn)
    (s : st W) (w1 : W) (later : list string) :
  locator uri = [(bucket, key)] ->
  s3_get_object bucket key (world s) = (Ret text, w1) ->
  truthy text = true ->
  json_loads text = Raise e ->
  import_from s3 endpoint api_key uri s
  = (Raise e, after (GetObject bucket key) w1 s)
  /\ for_each (uri :: later) (import_from s3 endpoint api_key) s
     = (Raise e, after (GetObject bucket key) w1 s).
Proof.
  intros Hloc Hget Htext Hdoc.
  assert (Hbody : import_from s3 endpoint api_key uri s
                  = (Raise e, after (GetObject bucket key) w1 s)).
  { rewrite (import_from_fetched _ _ _ _ _ _ _ Hloc), Hget, Htext.
    now apply import_dashboard_unparsed. }
  split; [exact Hbody |]. simpl. unfold bind. now rewrite Hbody.
Qed.

(** *** The callback after provisioning *)

Section Reported.
Variables (environ event : gmap string string) (context : lambda_context).
Variables url stack_id request_id logical_id : string.
Hypothesis has_url : event !! "ResponseURL" = Some url.
Hypothesis url_truthy : truthy url = true.
Hypothesis has_stack : event !! "StackId" = Some stack_id.
Hypothesis has_request : event !! "RequestId" = Some request_id.
Hypothesis has_logical : event !! "LogicalResourceId" = Some logical_id.
Hypothesis provisioning :
  default "Create" (event !! "RequestType") ∈ ["Create"; "Update"].

Let cb := callback url context stack_id request_id logical_id.

(** X12. When provisioning has succeeded and the SUCCESS callback is
    refused with an exception, the handler sends a second callback, FAILED,
    whose reason is the text of that exception; what this second PUT does
    is what the handler does: it returns if the PUT is accepted and lets
    its exception out otherwise. *)
Theorem refused_success_is_reported_failed (s s1 : st W) (e : exn) :
  provision environ s = (Ret tt, s1) ->
  let first := cb "SUCCESS" (Some [("Status", JStr "Provisioned")]) None in
  fst (urlopen first (world s1)) = Raise e ->
  let s2 := after (UrlOpen first) (snd (urlopen first (world s1))) s1 in
  let second := cb "FAILED" None (Some (str e)) in
  handler environ event context s
  = (void (fst (urlopen second (world s2))),
     after (UrlOpen second) (snd (urlopen second (world s2))) s2).
Proof.
  intros Hprov first Hput s2 second.
  rewrite (handler_provisioning _ _ _ _ provisioning), Hprov.
  rewrite (send_cfn_response_run event context url stack_id request_id
             logical_id has_url url_truthy has_stack has_request has_logical).
  fold cb first. rewrite Hput. cbn [void]. fold s2.
  now rewrite (send_cfn_response_run event context url stack_id request_id
                 logical_id has_url url_truthy has_stack has_request
                 has_logical).
Qed.

(** X13. When a provisioning step raises, the handler sends exactly one
    request after it, the FAILED callback: its [Data] is empty, its
    [Reason] is the text of the exception or, when that text is empty, the
    pointer to the log stream, and it echoes the identifiers of the event
    with the log stream name as physical resource id.  The handler returns
    if the PUT is accepted and lets its exception out otherwise. *)
Theorem failure_is_reported (s s1 : st W) (e : exn) :
  provision environ s = (Raise e, s1) ->
  exists req,
    handler environ event context s
    = (void (fst (urlopen req (world s1))),
       after (UrlOpen req) (snd (urlopen req (world s1))) s1)
    /\ req_url req = url /\ req_method req = PUT
    /\ req_data req
       = Some (JObj [("Status", JStr "FAILED");
                     ("Reason",
                      JStr (if truthy (str e) then str e
                            else "See the details in CloudWatch Log Stream: "
                                 +:+ log_stream_name context));
                     ("PhysicalResourceId", JStr (log_stream_name context));
                     ("StackId", JStr stack_id);
                     ("RequestId", JStr request_id);
                     ("LogicalResourceId", JStr logical_id);
                     ("Data", JObj [])]).
Proof.
  intros Hprov. exists (cb "FAILED" None (Some (str e))).
  rewrite (handler_provisioning _ _ _ _ provisioning), Hprov.
  rewrite (send_cfn_response_run event context url stack_id request_id
             logical_id has_url url_truthy has_stack has_request has_logical).
  repeat split.
Qed.

End Reported.

End More.

(** *** Sample runs *)

(** An object store with an empty object and one that is not JSON. *)
Definition odd_objects : Samples.sandbox :=
  {| Samples.has_prom := true;
     Samples.objects := [("b", "empty.json", EmptyString);
                         ("b", "notes.txt", "to do")] |}.

(** An invocation from a console: no callback URL. *)
Definition local_event : gmap string string :=
  {[ "RequestType" := "Create" ]}.



(** The sample configuration with nothing to import. *)
Definition environ_without_dashboards : gmap string string :=
  <["DASHBOARD_URIS" := " , ,,"]> Samples.sample_environ.

Definition s3_client : client :=
  {| service := "s3"; region_name := "eu-west-1" |}.

Lemma handler_without_response_url_witness :
  fst (@handler Samples.sample_lib _ (Samples.sandbox_cloud true)
         ∅ local_event Samples.sample_context (Samples.start Samples.fresh))
  = Ret tt.
Proof.
  rewrite (@handler_without_response_url Samples.sample_lib _
             (Samples.sandbox_cloud true) ∅ local_event
             Samples.sample_context (Samples.start Samples.fresh) eq_refl).
  reflexivity.
Defined.


Lemma update_runs_as_create_witness :
  @handler Samples.sample_lib _ (Samples.sandbox_cloud true)
    Samples.sample_environ (Samples.sample_event "Update")
    Samples.sample_context (Samples.start Samples.fresh)
  = @handler Samples.sample_lib _ (Samples.sandbox_cloud true)
      Samples.sample_environ
      (<["RequestType" := "Create"]> (Samples.sample_event "Update"))
      Samples.sample_context (Samples.start Samples.fresh).
Proof.
  exact (@update_runs_as_create Samples.sample_lib _
           (Samples.sandbox_cloud true) Samples.sample_environ
           (Samples.sample_event "Update") Samples.sample_context
           (Samples.start Samples.fresh) eq_refl).
Defined.


Lemma provision_call_order_witness :
  exists before later,
    trace (snd (@provision Samples.sample_lib _ (Samples.sandbox_cloud true)
                  Samples.sample_environ (Samples.start Samples.fresh)))
    = before ++ later
    /\ (later <> [] -> List.length before = 3%nat).
Proof.
  destruct (@provision_call_order Samples.sample_lib _
              (Samples.sandbox_cloud true) Samples.sample_environ
              "eu-west-1" "g-xyz" grafana_endpoint "ws-1"
              (Samples.start Samples.fresh) eq_refl eq_refl eq_refl eq_refl)
    as (before & later & T & _ & _ & L).
  now exists before, later.
Defined.

Lemma provision_requests_confined_witness :
  exists calls api_key,
    trace (snd (@provision Samples.sample_lib _ (Samples.sandbox_cloud true)
                  Samples.sample_environ (Samples.start Samples.fresh)))
    = calls
    /\ Forall (fun c => match c with
                        | UrlOpen req =>
                            startswith (req_url req) grafana_endpoint = true
                            /\ req_headers req
                               = [("Authorization", "Bearer " +:+ api_key);
                                  ("Content-Type", "application/json")]
                        | _ => True
                        end) calls.
Proof.
  destruct (@provision_requests_confined Samples.sample_lib _
              (Samples.sandbox_cloud true) Samples.sample_environ
              "eu-west-1" "g-xyz" grafana_endpoint "ws-1"
              (Samples.start Samples.fresh) eq_refl eq_refl eq_refl eq_refl)
    as (calls & api_key & T & P).
  now exists calls, api_key.
Defined.

Lemma blank_uris_fetch_nothing_witness :
  dashboard_uris
    (default EmptyString (environ_without_dashboards !! "DASHBOARD_URIS"))
  = [].
Proof.
  exact (proj1 (@blank_uris_fetch_nothing Samples.sample_lib _
                  (Samples.sandbox_cloud true)
                  environ_without_dashboards
                  (Samples.start Samples.fresh) eq_refl)).
Defined.

Lemma wellformed_locator_is_fetched_witness :
  trace (snd (@get_dashboard_json _ (Samples.sandbox_cloud true) s3_client
                "s3://b/dashboards/2026/a.json"
                (Samples.start Samples.fresh)))
  = [GetObject "b" "dashboards/2026/a.json"].
Proof.
  pose proof (@wellformed_locator_is_fetched _ (Samples.sandbox_cloud true)
                s3_client "b" "dashboards/2026/a.json"
                (Samples.start Samples.fresh) eq_refl) as E.
  change ("s3://" +:+ "b" +:+ "/" +:+ "dashboards/2026/a.json")
    with "s3://b/dashboards/2026/a.json" in E.
  rewrite E. reflexivity.
Defined.

Lemma empty_object_is_skipped_witness :
  @import_from Samples.sample_lib _ (Samples.sandbox_cloud true) s3_client
    grafana_endpoint "secret" "s3://b/empty.json" (Samples.start odd_objects)
  = (Ret tt, after (GetObject "b" "empty.json") odd_objects
               (Samples.start odd_objects)).
Proof.
  exact (@empty_object_is_skipped Samples.sample_lib _
           (Samples.sandbox_cloud true) s3_client grafana_endpoint "secret"
           "s3://b/empty.json" "b" "empty.json" (Samples.start odd_objects)
           odd_objects eq_refl eq_refl).
Defined.

Lemma unparsable_object_sends_nothing_witness :
  trace (snd (@for_each _ _
                ["s3://b/notes.txt"; "s3://b/empty.json"]
                (@import_from Samples.sample_lib _
                   (Samples.sandbox_cloud true) s3_client grafana_endpoint
                   "secret")
                (Samples.start odd_objects)))
  = [GetObject "b" "notes.txt"].
Proof.
  rewrite (proj2 (@unparsable_object_sends_nothing Samples.sample_lib _
                    (Samples.sandbox_cloud true) s3_client grafana_endpoint
                    "secret" "s3://b/notes.txt" "b" "notes.txt" "to do"
                    (Exception "JSONDecodeError"
                       "Expecting value: line 1 column 1 (char 0)")
                    (Samples.start odd_objects) odd_objects
                    ["s3://b/empty.json"] eq_refl eq_refl eq_refl eq_refl)).
  reflexivity.
Defined.

Lemma sample_create_branch :
  default "Create" (Samples.sample_event "Create" !! "RequestType")
  ∈ ["Create"; "Update"].
Proof.
  replace (default "Create" (Samples.sample_event "Create" !! "RequestType"))
    with "Create" by reflexivity.
  rewrite elem_of_cons. now left.
Qed.

Lemma sample_provisioned :
  @provision Samples.sample_lib _ (Samples.sandbox_cloud false)
    Samples.sample_environ (Samples.start Samples.fresh)
  = (Ret tt,
     snd (@provision Samples.sample_lib _ (Samples.sandbox_cloud false)
            Samples.sample_environ (Samples.start Samples.fresh))).
Proof. vm_compute. reflexivity. Qed.

Lemma refused_success_is_reported_failed_witness :
  fst (@handler Samples.sample_lib _ (Samples.sandbox_cloud false)
         Samples.sample_environ (Samples.sample_event "Create")
         Samples.sample_context (Samples.start Samples.fresh))
  = Raise (HTTPError 403 "Forbidden" EmptyString).
Proof.
  rewrite (@refused_success_is_reported_failed Samples.sample_lib _
             (Samples.sandbox_cloud false) Samples.sample_environ
             (Samples.sample_event "Create") Samples.sample_context
             callback_url "stack-1" "req-1" "GrafanaProvisioner"
             eq_refl eq_refl eq_refl eq_refl eq_refl
             sample_create_branch
             (Samples.start Samples.fresh) _
             (HTTPError 403 "Forbidden" EmptyString)
             sample_provisioned eq_refl).
  reflexivity.
Defined.

(** A cloud whose object store is empty: the first fetch fails. *)
Definition bare : Samples.sandbox :=
  {| Samples.has_prom := true; Samples.objects := [] |}.

Lemma sample_fetch_fails :
  @provision Samples.sample_lib _ (Samples.sandbox_cloud true)
    Samples.sample_environ (Samples.start bare)
  = (Raise (Exception "NoSuchKey" "The specified key does not exist."),
     snd (@provision Samples.sample_lib _ (Samples.sandbox_cloud true)
            Samples.sample_environ (Samples.start bare))).
Proof. vm_compute. reflexivity. Qed.

Lemma failure_is_reported_witness :
  exists req,
    fst (@handler Samples.sample_lib _ (Samples.sandbox_cloud true)
           Samples.sample_environ (Samples.sample_event "Create")
           Samples.sample_context (Samples.start bare))
    = void (fst (Samples.sandbox_urlopen true req bare))
    /\ member "Reason" (default JNull (req_data req))
       = Some (JStr "The specified key does not exist.").
Proof.
  destruct (@failure_is_reported Samples.sample_lib _
              (Samples.sandbox_cloud true) Samples.sample_environ
              (Samples.sample_event "Create") Samples.sample_context
              callback_url "stack-1" "req-1" "GrafanaProvisioner"
              eq_refl eq_refl eq_refl eq_refl eq_refl
              sample_create_branch
              (Samples.start bare) _
              (Exception "NoSuchKey" "The specified key does not exist.")
              sample_fetch_fails)
    as (req & E & _ & _ & D).
  exists req. rewrite E, D. split; reflexivity.
Defined.

End ProvisionerMore.

(** * Further properties of the stand-alone importer *)

Module ImporterMore.
Import Importer ImporterFacts.

Section More.
Context `{PyLib} (environ : gmap string string).

Local Open Scope Q_scope.

(** *** The waiter *)

(** X14. With a timeout of zero or less the waiter raises the
    [TimeoutError] at once: no health check is made and the machine is
    left as it was. *)
Theorem waiter_gives_up_at_once (timeout_seconds : Z) (fuel : nat)
    (h : host) :
  (timeout_seconds <= 0)%Z ->
  wait_for_grafana_ready environ timeout_seconds (S fuel) h
  = Some (Raise not_ready, h).
Proof.
  intros Hneg. unfold wait_for_grafana_ready. rewrite poll_eq.
  destruct (Qlt_le_dec (now h) (now h + inject_Z timeout_seconds))
    as [Hlt | Hge]; [| reflexivity].
  rewrite Zle_Qle in Hneg. change (inject_Z 0) with 0 in Hneg. lra.
Qed.

(** The loop sends health checks only, and touches neither the files nor
    the network script. *)
Lemma poll_sent (fuel : nat) (deadline : Q) (h : host) (r : res unit)
    (h' : host) :
  poll environ fuel deadline h = Some (r, h') ->
  exists n,
    sent h' = sent h ++ repeat (health_request environ) n
    /\ files h' = files h /\ net h' = net h.
Proof.
  revert h; induction fuel as [|fuel IH]; intros h; [discriminate |].
  rewrite poll_eq. destruct (Qlt_le_dec (now h) deadline).
  - destruct (ready_at h 0).
    + intros [= <- <-]. now exists 1%nat.
    + intros Hrun.
      destruct (IH (next environ h) Hrun) as (n & Hs & Hf & Hn).
      exists (S n). rewrite Hs, Hf, Hn. simpl. rewrite <- app_assoc.
      now repeat split.
  - intros [= <- <-]. exists 0%nat. simpl. now rewrite app_nil_r.
Qed.

Lemma poll_time_at_least (h : host) (i : nat) :
  (forall n, 0 <= took h n) ->
  now h + 2 * inject_Z (Z.of_nat i) <= poll_time h i.
Proof.
  intros Hpos. induction i as [|i IH].
  - change (inject_Z (Z.of_nat 0)) with 0. simpl. lra.
  - rewrite Nat2Z.inj_succ. unfold Z.succ. rewrite inject_Z_plus.
    change (inject_Z 1) with 1. simpl. specialize (Hpos i). lra.
Qed.

(** X15. Whatever the network does, as long as no request takes
    negative time, the waiter sends nothing but GET requests to
    [<GRAFANA_URL>/api/health] with a five-second timeout, and a bounded
    number of them: if it sent [n >= 1] of them, then [2 * (n - 1)] is less
    than the timeout in seconds (at most 60 with the default of 120). *)
Theorem waiter_sends_bounded_health_checks (timeout_seconds : Z)
    (fuel : nat) (h : host) (r : res unit) (h' : host) :
  (forall i, 0 <= took h i) ->
  wait_for_grafana_ready environ timeout_seconds fuel h = Some (r, h') ->
  exists n,
    sent h' = sent h ++ repeat {| req_url := GRAFANA_URL environ
                                              +:+ "/api/health";
                                  req_method := GET;
                                  req_headers := [];
                                  req_data := None;
                                  req_timeout := Some 5%Z |} n
    /\ (n = 0%nat \/ (2 * (Z.of_nat n - 1) < timeout_seconds)%Z).
Proof.
  intros Hpos Hrun. unfold wait_for_grafana_ready in Hrun.
  destruct (poll_sent _ _ _ _ _ Hrun) as (n & Hsent & _ & _).
  exists n. split; [exact Hsent |].
  destruct n as [|m]; [now left | right].
  assert (Hlen : List.length (sent h') = (List.length (sent h) + S m)%nat).
  { rewrite Hsent, length_app, repeat_length. reflexivity. }
  assert (Hstart : poll_time h m < now h + inject_Z timeout_seconds).
  { destruct (poll_sound environ _ _ _ _ _ Hrun) as [_ Hcases].
    destruct Hcases as [[_ [k (_ & Hk & _ & Hsent' & _)]]
                       | [_ [k (Hbefore & _ & Hsent' & _)]]].
    - assert (k = m) as -> by lia. exact Hk.
    - assert (k = S m) as -> by lia.
      now destruct (Hbefore m (Nat.lt_succ_diag_r m)). }
  pose proof (poll_time_at_least h m Hpos) as Hlow.
  replace (Z.of_nat (S m) - 1)%Z with (Z.of_nat m) by lia.
  rewrite Zlt_Qlt, inject_Z_mult. change (inject_Z 2) with 2. lra.
Qed.

(** X16. When no health check that starts within the 120 seconds
    answers 200, the script ends with the [TimeoutError] of the waiter: it
    sent health checks only, so no dashboard was posted, it printed
    nothing, and its exit status is not zero. *)
Theorem main_stops_at_timeout (h : host) :
  (forall i, 0 <= took h i) ->
  (forall k, poll_time h k < now h + 120 -> ready_at h k = false) ->
  exists fuel h',
    (forall fuel', (fuel <= fuel')%nat ->
       main environ fuel' h = Some (Raise not_ready, h'))
    /\ stdout h' = stdout h
    /\ (exists n, sent h' = sent h ++ repeat (health_request environ) n)
    /\ exit_status (Raise not_ready) <> 0%Z.
Proof.
  intros Hpos Hnever.
  set (deadline := now h + inject_Z 120).
  destruct (enough_fuel deadline h) as [n Hn].
  destruct (poll_terminates environ n deadline h Hpos Hn) as [[r h'] Hrun].
  destruct (poll_sound environ _ _ _ _ _ Hrun) as [Hout Hcases].
  destruct (poll_sent _ _ _ _ _ Hrun) as (m & Hsent & _ & _).
  assert (Hr : r = Raise not_ready).
  { destruct Hcases as [[_ [k (Hready & Hk & _)]] | [-> _]]; [| reflexivity].
    specialize (Hnever k Hk). congruence. }
  subst r. exists (S n), h'. split; [| split; [exact Hout | split]].
  - intros fuel' Hfuel. unfold main, wait_for_grafana_ready.
    fold deadline. replace fuel' with (S n + (fuel' - S n))%nat by lia.
    now rewrite (poll_more_fuel environ _ _ _ _ _ Hrun).
  - now exists m.
  - discriminate.
Qed.

(** *** The import *)

(** X17. When the dashboard file cannot be read, or its text is not
    JSON, the importer raises that exception with nothing sent and nothing
    printed. *)
Theorem import_needs_a_dashboard (h : host) (e : exn) :
  files h (DASHBOARD_PATH environ) = Raise e
  \/ (exists text, files h (DASHBOARD_PATH environ) = Ret text
                   /\ json_loads text = Raise e) ->
  import_dashboard environ h = (Raise e, h).
Proof.
  unfold import_dashboard, bind, open_read, lift.
  intros [Hfile | (text & Hfile & Hdoc)]; rewrite Hfile; [reflexivity |].
  now rewrite Hdoc.
Qed.


End More.

(** *** Sample runs *)

Lemma waiter_gives_up_at_once_witness :
  @wait_for_grafana_ready ∅ 0 1
    (Samples.sample_host (Samples.up_after 0 0))
  = Some (Raise not_ready, Samples.sample_host (Samples.up_after 0 0)).
Proof.
  exact (waiter_gives_up_at_once ∅ 0 0
           (Samples.sample_host (Samples.up_after 0 0))
           ltac:(discriminate)).
Defined.

Lemma always_timing_out_nonneg (i : nat) :
  (0 <= took (Samples.sample_host Samples.always_timing_out) i)%Q.
Proof. unfold took. simpl. lra. Qed.

(** Where the waiter leaves the machine that never answers. *)
Definition timed_out_host : host :=
  match @wait_for_grafana_ready ∅ 120 100
          (Samples.sample_host Samples.always_timing_out) with
  | Some (_, h') => h'
  | None => Samples.sample_host Samples.always_timing_out
  end.

Lemma sample_wait_times_out :
  @wait_for_grafana_ready ∅ 120 100
    (Samples.sample_host Samples.always_timing_out)
  = Some (Raise not_ready, timed_out_host).
Proof. vm_compute. reflexivity. Qed.

Lemma waiter_sends_bounded_health_checks_witness :
  exists n,
    sent timed_out_host = repeat (health_request ∅) n
    /\ (n = 0%nat \/ (2 * (Z.of_nat n - 1) < 120)%Z).
Proof.
  exact (waiter_sends_bounded_health_checks ∅ 120 100
           (Samples.sample_host Samples.always_timing_out)
           (Raise not_ready) timed_out_host
           always_timing_out_nonneg sample_wait_times_out).
Defined.

Lemma always_timing_out_never_ready (k : nat) :
  ready_at (Samples.sample_host Samples.always_timing_out) k = false.
Proof. reflexivity. Qed.

Lemma main_stops_at_timeout_witness :
  exists fuel h',
    forall fuel', (fuel <= fuel')%nat ->
      @main Samples.sample_lib ∅ fuel'
        (Samples.sample_host Samples.always_timing_out)
      = Some (Raise not_ready, h').
Proof.
  destruct (@main_stops_at_timeout Samples.sample_lib ∅
              (Samples.sample_host Samples.always_timing_out)
              always_timing_out_nonneg
              (fun k _ => always_timing_out_never_ready k))
    as (fuel & h' & Hrun & _).
  now exists fuel, h'.
Defined.

(** A machine on which the dashboard file does not exist. *)
Definition no_dashboard : host :=
  {| now := 0%Q; net := Samples.up_after 0 0; sent := [];
     files := fun _ => Raise (Exception "FileNotFoundError"
                                        "[Errno 2] No such file or directory");
     stdout := [] |}.

Lemma import_needs_a_dashboard_witness :
  @import_dashboard Samples.sample_lib ∅ no_dashboard
  = (Raise (Exception "FileNotFoundError"
                      "[Errno 2] No such file or directory"),
     no_dashboard).
Proof.
  exact (@import_needs_a_dashboard Samples.sample_lib ∅ no_dashboard _
           (or_introl eq_refl)).
Defined.


End ImporterMore.
